(** * Store state manager of the e-commerce storefront (src/App.tsx, src/types.ts)

    A shallow embedding of the [AppProvider] component: the four persisted
    collections (admin flag, products, cart, orders), the operations the
    provider exposes through its context, and the derived aggregates.

    Modelling choices.
    - A JavaScript [number] that holds a price, a quantity or a clock reading
      is an integer of [Z]: the model covers integral values of magnitude
      below 2^53, on which the sums and products of the code are exact.
      Prices with a fraction, which the admin form accepts, are outside it:
      nothing is stated that regroups or reorders a sum of prices.  The
      quantity [NaN], which the cart page can pass, has an embedding of its
      own (modules [JsNumber], [JsCartItem], [JsCart]).
    - [Date.now()] is an input of the operation that reads it.
    - [useLocalStorage] gives each collection a setter that accepts a value or
      an updater function, and applies the updater to the value captured when
      the component rendered ([storedValue]), not to a pending one: an
      operation is a function of that snapshot.  Writing the JSON text to
      [window.localStorage] is not modelled.
    - An [async] function without [await] runs to completion when called; its
      promise carries the returned value.
    - The mount effect that seeds an empty product list with
      [initialProducts] is not an operation of the context and is left out. *)

From Stdlib Require Import ZArith List String Bool Lia.
From Stdlib Require Import DecimalString DecimalZ.
From Stdlib Require Import Permutation Sorted.
Import ListNotations.

Open Scope Z_scope.

(** ** Data model (src/types.ts) *)

Module Product.
Record t : Type := mk
  { id : string;
    name : string;
    price : Z;
    image : string;
    description : string }.
End Product.

(** [Omit<Product, 'id'>], the argument of [addProduct]. *)
Module ProductData.
Record t : Type := mk
  { name : string;
    price : Z;
    image : string;
    description : string }.
End ProductData.

(** [interface CartItem extends Product { quantity: number }] *)
Module CartItem.
Record t : Type := mk
  { id : string;
    name : string;
    price : Z;
    image : string;
    description : string;
    quantity : Z }.

(** [{ ...product, quantity }] *)
Definition ofProduct (product : Product.t) (quantity : Z) : t :=
  {| id := Product.id product;
     name := Product.name product;
     price := Product.price product;
     image := Product.image product;
     description := Product.description product;
     quantity := quantity |}.

(** [{ ...item, quantity: q }] *)
Definition withQuantity (item : t) (q : Z) : t :=
  {| id := id item;
     name := name item;
     price := price item;
     image := image item;
     description := description item;
     quantity := q |}.
End CartItem.

Module CustomerInfo.
Record t : Type := mk
  { name : string;
    phone : string;
    address : string }.
End CustomerInfo.

(** [Order['status']] *)
Inductive OrderStatus : Type := Pending | Shipped | Delivered.

(** [paymentMethod: 'Cash on Delivery'] *)
Inductive PaymentMethod : Type := CashOnDelivery.

Module Order.
Record t : Type := mk
  { id : string;
    customerInfo : CustomerInfo.t;
    items : list CartItem.t;
    totalAmount : Z;
    paymentMethod : PaymentMethod;
    timestamp : Z;
    status : OrderStatus }.

(** [{ ...o, status }] *)
Definition withStatus (o : t) (st : OrderStatus) : t :=
  {| id := id o;
     customerInfo := customerInfo o;
     items := items o;
     totalAmount := totalAmount o;
     paymentMethod := paymentMethod o;
     timestamp := timestamp o;
     status := st |}.
End Order.

(** ** Constants *)

Definition ADMIN_EMAIL : string := "admin@example.com".
Definition ADMIN_PASSWORD : string := "password123".
Definition SHIPPING_COST : Z := 250.

Definition initialProducts : list Product.t :=
  [ Product.mk "1" "Classic Leather Wallet" 2500
      "https://picsum.photos/seed/product1/400/300"
      "A high-quality classic leather wallet with multiple compartments.";
    Product.mk "2" "Modern Smartwatch DX" 15000
      "https://picsum.photos/seed/product2/400/300"
      "Stay connected with this sleek and feature-rich smartwatch.";
    Product.mk "3" "Wireless Bluetooth Headphones" 7000
      "https://picsum.photos/seed/product3/400/300"
      "Immersive sound quality with long-lasting battery life.";
    Product.mk "4" "Ergonomic Office Chair" 22000
      "https://picsum.photos/seed/product4/400/300"
      "Comfortable and supportive chair for long working hours.";
    Product.mk "5" "Portable Coffee Maker" 4500
      "https://picsum.photos/seed/product5/400/300"
      "Enjoy fresh coffee anywhere with this portable maker.";
    Product.mk "6" "Yoga Mat Premium" 3000
      "https://picsum.photos/seed/product6/400/300"
      "Non-slip and eco-friendly yoga mat for your practice." ].

(** [n.toString()] for an integral number of magnitude below 10^21, as
    every clock reading is: its decimal numeral. *)
Definition toString (n : Z) : string := NilZero.string_of_int (Z.to_int n).

(** ** The store and its setters *)

(** The four [useLocalStorage] cells of [AppProvider]. *)
Record Store : Type := mkStore
  { isAdmin : bool;
    products : list Product.t;
    cart : list CartItem.t;
    orders : list Order.t }.

(** Defaults used when the storage holds nothing. *)
Definition initialStore : Store :=
  {| isAdmin := false; products := initialProducts; cart := []; orders := [] |}.

(** [React.SetStateAction<T>]: a new value, or a function of the old one. *)
Inductive SetStateAction (T : Type) : Type :=
| Value (v : T)
| Updater (f : T -> T).
Arguments Value {T} v.
Arguments Updater {T} f.

(** [value instanceof Function ? value(storedValue) : value] *)
Definition valueToStore {T : Type} (value : SetStateAction T) (storedValue : T) : T :=
  match value with
  | Value v => v
  | Updater f => f storedValue
  end.

(** An operation of the provider reads the snapshot of its render and
    accumulates the next content of the cells. *)
Definition Action (A : Type) : Type := Store -> Store -> A * Store.

Definition ret {A : Type} (a : A) : Action A := fun _ next => (a, next).

Definition bind {A B : Type} (m : Action A) (k : A -> Action B) : Action B :=
  fun snapshot next => let (a, next') := m snapshot next in k a snapshot next'.

Notation "m ;; k" := (bind m (fun _ => k))
  (at level 61, right associativity).

(** Calling an operation from an event handler of the rendered tree. *)
Definition call {A : Type} (m : Action A) (s : Store) : A * Store := m s s.
Definition result {A : Type} (m : Action A) (s : Store) : A := fst (call m s).
Definition exec {A : Type} (m : Action A) (s : Store) : Store := snd (call m s).

Definition setIsAdmin (value : SetStateAction bool) : Action unit :=
  fun snapshot next =>
    (tt, {| isAdmin := valueToStore value (isAdmin snapshot);
            products := products next;
            cart := cart next;
            orders := orders next |}).

Definition setProducts (value : SetStateAction (list Product.t)) : Action unit :=
  fun snapshot next =>
    (tt, {| isAdmin := isAdmin next;
            products := valueToStore value (products snapshot);
            cart := cart next;
            orders := orders next |}).

Definition setCart (value : SetStateAction (list CartItem.t)) : Action unit :=
  fun snapshot next =>
    (tt, {| isAdmin := isAdmin next;
            products := products next;
            cart := valueToStore value (cart snapshot);
            orders := orders next |}).

Definition setOrders (value : SetStateAction (list Order.t)) : Action unit :=
  fun snapshot next =>
    (tt, {| isAdmin := isAdmin next;
            products := products next;
            cart := cart next;
            orders := valueToStore value (orders snapshot) |}).

(** ** Operations of [AppProvider] *)

(** Auth logic *)
Definition login (email pass : string) : Action bool :=
  if ((email =? ADMIN_EMAIL)%string && (pass =? ADMIN_PASSWORD)%string)%bool
  then setIsAdmin (Value true) ;; ret true
  else ret false.

Definition logout : Action unit := setIsAdmin (Value false).

(** Product logic; [now] is the reading of [Date.now()]. *)
Definition newProduct (now : Z) (productData : ProductData.t) : Product.t :=
  {| Product.id := toString now;
     Product.name := ProductData.name productData;
     Product.price := ProductData.price productData;
     Product.image := ProductData.image productData;
     Product.description := ProductData.description productData |}.

Definition addProduct (now : Z) (productData : ProductData.t) : Action unit :=
  setProducts (Updater (fun prev => prev ++ [newProduct now productData])).

Definition editProduct (updatedProduct : Product.t) : Action unit :=
  setProducts (Updater (fun prev =>
    map (fun p => if (Product.id p =? Product.id updatedProduct)%string
                  then updatedProduct else p) prev)).

Definition deleteProduct (productId : string) : Action unit :=
  setProducts (Updater (fun prev =>
    filter (fun p => negb (Product.id p =? productId)%string) prev)).

Definition getProductById (productId : string) (s : Store) : option Product.t :=
  find (fun p => (Product.id p =? productId)%string) (products s).

(** Cart logic *)
Definition addToCart (product : Product.t) (quantity : Z) : Action unit :=
  setCart (Updater (fun prevCart =>
    let existingItem :=
      find (fun item => (CartItem.id item =? Product.id product)%string) prevCart in
    match existingItem with
    | Some _ =>
        map (fun item =>
               if (CartItem.id item =? Product.id product)%string
               then CartItem.withQuantity item (CartItem.quantity item + quantity)
               else item) prevCart
    | None => prevCart ++ [CartItem.ofProduct product quantity]
    end)).

(** A call that omits the quantity takes the default [quantity = 1]. *)
Definition addToCart_default (product : Product.t) : Action unit :=
  addToCart product 1.

Definition removeFromCart (productId : string) : Action unit :=
  setCart (Updater (fun prevCart =>
    filter (fun item => negb (CartItem.id item =? productId)%string) prevCart)).

Definition updateCartQuantity (productId : string) (quantity : Z) : Action unit :=
  if quantity <=? 0
  then removeFromCart productId
  else setCart (Updater (fun prevCart =>
         map (fun item =>
                if (CartItem.id item =? productId)%string
                then CartItem.withQuantity item quantity
                else item) prevCart)).

Definition clearCart : Action unit := setCart (Value []).

(** [items.reduce((total, item) => total + item.price * item.quantity, 0)] *)
Definition subtotalOf (items : list CartItem.t) : Z :=
  fold_left (fun total item => total + CartItem.price item * CartItem.quantity item)
            items 0.

Definition cartSubtotal (s : Store) : Z := subtotalOf (cart s).

Definition cartItemCount (s : Store) : Z :=
  fold_left (fun count item => count + CartItem.quantity item) (cart s) 0.

(** Order logic; [nowId] and [nowTs] are the two readings of [Date.now()],
    for the order id and for the timestamp. *)
Definition newOrder (nowId nowTs : Z) (customerInfo : CustomerInfo.t)
    (cartItems : list CartItem.t) : Order.t :=
  let itemsSubtotal := subtotalOf cartItems in
  let totalAmountWithShipping := itemsSubtotal + SHIPPING_COST in
  {| Order.id := toString nowId;
     Order.customerInfo := customerInfo;
     Order.items := cartItems;
     Order.totalAmount := totalAmountWithShipping;
     Order.paymentMethod := CashOnDelivery;
     Order.timestamp := nowTs;
     Order.status := Pending |}.

Definition placeOrder (nowId nowTs : Z) (customerInfo : CustomerInfo.t)
    (cartItems : list CartItem.t) : Action (option string) :=
  if (List.length cartItems =? 0)%nat then ret None
  else
    let order := newOrder nowId nowTs customerInfo cartItems in
    setOrders (Updater (fun prevOrders => prevOrders ++ [order])) ;;
    clearCart ;;
    ret (Some (Order.id order)).

Definition updateOrderStatus (orderId : string) (status : OrderStatus) : Action unit :=
  setOrders (Updater (fun prevOrders =>
    map (fun o => if (Order.id o =? orderId)%string
                  then Order.withStatus o status else o) prevOrders)).

(** Calculate total sales amount *)
Definition totalSalesAmount (s : Store) : Z :=
  fold_left (fun sum order => sum + Order.totalAmount order) (orders s) 0.

(** The earlier copy of the provider in the same file (lines 80-178) differs
    in [placeOrder] only: it has no shipping cost. *)
Module Legacy.
Definition newOrder (nowId nowTs : Z) (customerInfo : CustomerInfo.t)
    (cartItems : list CartItem.t) : Order.t :=
  {| Order.id := toString nowId;
     Order.customerInfo := customerInfo;
     Order.items := cartItems;
     Order.totalAmount := subtotalOf cartItems;
     Order.paymentMethod := CashOnDelivery;
     Order.timestamp := nowTs;
     Order.status := Pending |}.

Definition placeOrder (nowId nowTs : Z) (customerInfo : CustomerInfo.t)
    (cartItems : list CartItem.t) : Action (option string) :=
  if (List.length cartItems =? 0)%nat then ret None
  else
    let order := newOrder nowId nowTs customerInfo cartItems in
    setOrders (Updater (fun prevOrders => prevOrders ++ [order])) ;;
    clearCart ;;
    ret (Some (Order.id order)).
End Legacy.

(** ** Sequences of calls *)

(** One call of an operation of the context, with its arguments and the
    clock readings it consumes. *)
Inductive Op : Type :=
| OpLogin (email pass : string)
| OpLogout
| OpAddProduct (now : Z) (productData : ProductData.t)
| OpEditProduct (updatedProduct : Product.t)
| OpDeleteProduct (productId : string)
| OpAddToCart (product : Product.t) (quantity : Z)
| OpRemoveFromCart (productId : string)
| OpUpdateCartQuantity (productId : string) (quantity : Z)
| OpClearCart
| OpPlaceOrder (nowId nowTs : Z) (customerInfo : CustomerInfo.t)
    (cartItems : list CartItem.t)
| OpUpdateOrderStatus (orderId : string) (status : OrderStatus).

(** The store the next render sees after the call. *)
Definition step (op : Op) (s : Store) : Store :=
  match op with
  | OpLogin email pass => exec (login email pass) s
  | OpLogout => exec logout s
  | OpAddProduct now productData => exec (addProduct now productData) s
  | OpEditProduct updatedProduct => exec (editProduct updatedProduct) s
  | OpDeleteProduct productId => exec (deleteProduct productId) s
  | OpAddToCart product quantity => exec (addToCart product quantity) s
  | OpRemoveFromCart productId => exec (removeFromCart productId) s
  | OpUpdateCartQuantity productId quantity =>
      exec (updateCartQuantity productId quantity) s
  | OpClearCart => exec clearCart s
  | OpPlaceOrder nowId nowTs customerInfo cartItems =>
      exec (placeOrder nowId nowTs customerInfo cartItems) s
  | OpUpdateOrderStatus orderId status => exec (updateOrderStatus orderId status) s
  end.

Definition run (ops : list Op) (s : Store) : Store :=
  fold_left (fun s' op => step op s') ops s.

(** ** Properties stated by the specification *)

(** The sum of [f] over a list, the defining sum of the aggregates. *)
Fixpoint sigma {A : Type} (f : A -> Z) (l : list A) : Z :=
  match l with
  | [] => 0
  | x :: l' => f x + sigma f l'
  end.

(** Every line of the cart has a quantity of at least one. *)
Definition quantities_positive (c : list CartItem.t) : Prop :=
  Forall (fun item => 1 <= CartItem.quantity item) c.

(** No two lines of the cart share an id. *)
Definition unique_lines (c : list CartItem.t) : Prop :=
  NoDup (map CartItem.id c).

(** The calls whose quantity the callers clamp: [addToCart] receives a
    quantity of at least one. *)
Definition add_quantity_clamped (op : Op) : Prop :=
  match op with
  | OpAddToCart _ quantity => 1 <= quantity
  | _ => True
  end.

(** The amount of a cart line. *)
Definition lineAmount (item : CartItem.t) : Z :=
  CartItem.price item * CartItem.quantity item.

(** The ids of the lines of a cart, in order. *)
Definition ids (c : list CartItem.t) : list string := map CartItem.id c.

(** The updater of [addToCart] for an existing line, and of
    [updateCartQuantity]: rewrite the lines with id [k], keep the others. *)
Definition rewriteLines (k : string) (g : CartItem.t -> CartItem.t)
    (c : list CartItem.t) : list CartItem.t :=
  map (fun item => if (CartItem.id item =? k)%string then g item else item) c.

Definition dropLines (k : string) (c : list CartItem.t) : list CartItem.t :=
  filter (fun item => negb (CartItem.id item =? k)%string) c.

(** Sample data for the worked instances. *)
Definition sampleCustomer : CustomerInfo.t :=
  CustomerInfo.mk "Ayesha Khan" "03001234567" "12 Mall Road, Lahore".

Definition blankProduct : Product.t :=
  Product.mk EmptyString EmptyString 0 EmptyString EmptyString.
Definition wallet : Product.t := nth 0 initialProducts blankProduct.
Definition smartwatch : Product.t := nth 1 initialProducts blankProduct.

(** ** Pages that use the store *)

(** Strings are sequences of code units; the model has the code units below
    256, so of the white space and line terminators of JavaScript (the
    characters that [trim] strips and [\s] matches) these seven occur. *)
Definition isWhiteSpace (c : Ascii.ascii) : bool :=
  let n := Ascii.N_of_ascii c in
  ((n =? 9) || (n =? 10) || (n =? 11) || (n =? 12) || (n =? 13)
   || (n =? 32) || (n =? 160))%N.

(** [\d] *)
Definition isDigit (c : Ascii.ascii) : bool :=
  let n := Ascii.N_of_ascii c in ((48 <=? n) && (n <=? 57))%N.

Fixpoint dropWhiteSpace (cs : list Ascii.ascii) : list Ascii.ascii :=
  match cs with
  | [] => []
  | c :: cs' => if isWhiteSpace c then dropWhiteSpace cs' else cs
  end.

(** [s.trim()] *)
Definition trim (s : string) : string :=
  string_of_list_ascii
    (rev (dropWhiteSpace (rev (dropWhiteSpace (list_ascii_of_string s))))).

(** [!s] for a string [s]: only the empty string is falsy. *)
Definition isEmptyString (s : string) : bool :=
  match s with EmptyString => true | String _ _ => false end.

(** [s.replace(/\s+/g, '')]: every run of white space is deleted. *)
Definition removeWhiteSpace (s : string) : string :=
  string_of_list_ascii
    (filter (fun c => negb (isWhiteSpace c)) (list_ascii_of_string s)).

(** [/^\d{10,15}$/.test(s)] *)
Definition isPhoneNumber (s : string) : bool :=
  let cs := list_ascii_of_string s in
  ((10 <=? List.length cs)%nat && (List.length cs <=? 15)%nat
   && forallb isDigit cs)%bool.

(** What [handleSubmit] of [CheckoutPage] ends with: one of its three error
    messages, or the navigation to the page of the order. *)
Inductive SubmitOutcome : Type :=
| FieldsRequired
| InvalidPhone
| OrderFailed
| NavigateToOrderSuccess (orderId : string).

(** [handleSubmit] of [CheckoutPage]; [cart] is the cart of the render. *)
Definition handleSubmit (nowId nowTs : Z) (customerInfo : CustomerInfo.t)
    : Action SubmitOutcome :=
  if (isEmptyString (trim (CustomerInfo.name customerInfo))
      || isEmptyString (trim (CustomerInfo.phone customerInfo))
      || isEmptyString (trim (CustomerInfo.address customerInfo)))%bool
  then ret FieldsRequired
  else if negb (isPhoneNumber (removeWhiteSpace (CustomerInfo.phone customerInfo)))
  then ret InvalidPhone
  else fun snapshot =>
    bind (placeOrder nowId nowTs customerInfo (cart snapshot))
         (fun orderId =>
            match orderId with
            | Some id =>
                if isEmptyString id then ret OrderFailed
                else ret (NavigateToOrderSuccess id)
            | None => ret OrderFailed
            end) snapshot.

(** The total that [CheckoutPage] displays. *)
Definition totalAmountWithShipping (s : Store) : Z := cartSubtotal s + SHIPPING_COST.

(** The quantity state of [ProductDetailPage] after an input event:
    [Math.max(1, parseInt(e.target.value) || 1)].  [parsed] is the result of
    [parseInt], [None] for [NaN]. *)
Definition quantityFromInput (parsed : option Z) : Z :=
  Z.max 1 (match parsed with
           | Some n => if n =? 0 then 1 else n
           | None => 1
           end).

(** [ProtectedRoute] *)
Inductive RouteOutcome : Type := NavigateToLogin | RenderChildren.

Definition ProtectedRoute (s : Store) : RouteOutcome :=
  if negb (isAdmin s) then NavigateToLogin else RenderChildren.

(** The orders table of [AdminPage]:
    [orders.sort((a,b) => b.timestamp - a.timestamp)].  [sort] is stable and
    sorts the array in place, and the array is the one the orders cell
    holds: rendering the table reorders the orders of the store. *)
Definition compareOrders (a b : Order.t) : Z :=
  Order.timestamp b - Order.timestamp a.

Fixpoint insertOrder (x : Order.t) (l : list Order.t) : list Order.t :=
  match l with
  | [] => [x]
  | y :: l' =>
      if 0 <? compareOrders x y then y :: insertOrder x l' else x :: y :: l'
  end.

Definition sortOrders (l : list Order.t) : list Order.t :=
  fold_right insertOrder [] l.

Definition renderOrdersTable (s : Store) : Store :=
  {| isAdmin := isAdmin s;
     products := products s;
     cart := cart s;
     orders := sortOrders (orders s) |}.

(** The product list of [HomePage].  Lower case of a code unit below 256:
    the letters A-Z and the capital letters of the Latin-1 supplement. *)
Definition toLowerCaseChar (c : Ascii.ascii) : Ascii.ascii :=
  let n := Ascii.N_of_ascii c in
  if (((65 <=? n) && (n <=? 90)) || ((192 <=? n) && (n <=? 214))
      || ((216 <=? n) && (n <=? 222)))%N
  then Ascii.ascii_of_N (n + 32) else c.

Fixpoint toLowerCase (s : string) : string :=
  match s with
  | EmptyString => EmptyString
  | String c s' => String (toLowerCaseChar c) (toLowerCase s')
  end.

(** [s.includes(t)] *)
Fixpoint includes (s t : string) : bool :=
  (prefix t s
   || match s with
      | EmptyString => false
      | String _ s' => includes s' t
      end)%bool.

Definition filteredProducts (searchTerm : string) (s : Store) : list Product.t :=
  filter (fun product =>
            includes (toLowerCase (Product.name product)) (toLowerCase searchTerm))
         (products s).

(** Newest first: an order is not older than the orders after it. *)
Definition notOlder (a b : Order.t) : Prop := Order.timestamp b <= Order.timestamp a.

Definition newestFirst (l : list Order.t) : Prop := StronglySorted notOlder l.

(** Oldest first, with distinct timestamps. *)
Definition older (a b : Order.t) : Prop := Order.timestamp a < Order.timestamp b.

Definition placedAt (t : Z) (o : Order.t) : bool := Order.timestamp o =? t.

(** The code units of a string. *)
Definition chars (s : string) : list Ascii.ascii := list_ascii_of_string s.

(** A field is blank when all its characters are white space. *)
Definition blank (s : string) : bool := forallb isWhiteSpace (chars s).

(** What of an order no operation rewrites: everything but the status. *)
Definition orderRecord (o : Order.t)
    : string * CustomerInfo.t * list CartItem.t * Z * PaymentMethod * Z :=
  (Order.id o, Order.customerInfo o, Order.items o, Order.totalAmount o,
   Order.paymentMethod o, Order.timestamp o).

(** The calls that log in with the fixed credentials, and the logouts. *)
Definition isAdminLogin (op : Op) : bool :=
  match op with
  | OpLogin email pass => ((email =? ADMIN_EMAIL) && (pass =? ADMIN_PASSWORD))%string
  | _ => false
  end.

Definition isLogout (op : Op) : bool :=
  match op with OpLogout => true | _ => false end.

(** ** The cart with the quantities the pages pass

    The quantity that reaches the cart is the default [1], the clamped
    quantity of the product page, or the result of [parseInt] on the field
    of the cart page: an integer, or [NaN] when the field is empty.  This
    second embedding of the cart updaters takes such quantities; on integers
    it is the embedding above (lemma [jsCart_agrees]). *)
Module JsNumber.
Inductive t : Type :=
| Int (z : Z)
| NaN.

(** [a + b] *)
Definition add (a b : t) : t :=
  match a, b with
  | Int x, Int y => Int (x + y)
  | _, _ => NaN
  end.

(** [a <= b]: false when either side is [NaN]. *)
Definition leb (a b : t) : bool :=
  match a, b with
  | Int x, Int y => x <=? y
  | _, _ => false
  end.
End JsNumber.

Module JsCartItem.
(** A cart line: the fields of the product, and the quantity. *)
Record t : Type := mk
  { fields : Product.t;
    quantity : JsNumber.t }.

Definition id (item : t) : string := Product.id (fields item).

Definition ofCartItem (item : CartItem.t) : t :=
  {| fields := Product.mk (CartItem.id item) (CartItem.name item)
                 (CartItem.price item) (CartItem.image item)
                 (CartItem.description item);
     quantity := JsNumber.Int (CartItem.quantity item) |}.
End JsCartItem.

Module JsCart.
(** The updaters that the cart operations hand to [setCart]. *)
Definition addToCart (product : Product.t) (quantity : JsNumber.t)
    (prevCart : list JsCartItem.t) : list JsCartItem.t :=
  let existingItem :=
    find (fun item => (JsCartItem.id item =? Product.id product)%string) prevCart in
  match existingItem with
  | Some _ =>
      map (fun item =>
             if (JsCartItem.id item =? Product.id product)%string
             then JsCartItem.mk (JsCartItem.fields item)
                    (JsNumber.add (JsCartItem.quantity item) quantity)
             else item) prevCart
  | None => prevCart ++ [JsCartItem.mk product quantity]
  end.

Definition removeFromCart (productId : string)
    (prevCart : list JsCartItem.t) : list JsCartItem.t :=
  filter (fun item => negb (JsCartItem.id item =? productId)%string) prevCart.

Definition updateCartQuantity (productId : string) (quantity : JsNumber.t)
    (prevCart : list JsCartItem.t) : list JsCartItem.t :=
  if JsNumber.leb quantity (JsNumber.Int 0)
  then removeFromCart productId prevCart
  else map (fun item =>
              if (JsCartItem.id item =? productId)%string
              then JsCartItem.mk (JsCartItem.fields item) quantity
              else item) prevCart.

Definition clearCart (prevCart : list JsCartItem.t) : list JsCartItem.t := [].

Definition cartItemCount (cart : list JsCartItem.t) : JsNumber.t :=
  fold_left (fun count item => JsNumber.add count (JsCartItem.quantity item))
            cart (JsNumber.Int 0).

(** The quantity field of [CartPage]:
    [onChange={(e) => updateCartQuantity(item.id, parseInt(e.target.value))}];
    [parsed] is the result of [parseInt], [NaN] for the emptied field. *)
Definition cartPageQuantityChange (productId : string) (parsed : JsNumber.t)
    (prevCart : list JsCartItem.t) : list JsCartItem.t :=
  updateCartQuantity productId parsed prevCart.

(** The calls that write the cart; [Clear] is [clearCart], which
    [placeOrder] calls too. *)
Inductive Call : Type :=
| Add (product : Product.t) (quantity : JsNumber.t)
| Remove (productId : string)
| Update (productId : string) (quantity : JsNumber.t)
| Clear.

Definition step (call : Call) (cart : list JsCartItem.t) : list JsCartItem.t :=
  match call with
  | Add product quantity => addToCart product quantity cart
  | Remove productId => removeFromCart productId cart
  | Update productId quantity => updateCartQuantity productId quantity cart
  | Clear => clearCart cart
  end.

Definition run (calls : list Call) (cart : list JsCartItem.t) : list JsCartItem.t :=
  fold_left (fun cart' call => step call cart') calls cart.


(** [1 <= item.quantity] for every line. *)
Definition quantities_positive (cart : list JsCartItem.t) : Prop :=
  Forall (fun item => JsNumber.leb (JsNumber.Int 1) (JsCartItem.quantity item) = true)
         cart.

(** The calls whose quantity is an integer, at least one in [Add]. *)
Definition numeric (call : Call) : Prop :=
  match call with
  | Add _ (JsNumber.Int q) => 1 <= q
  | Add _ JsNumber.NaN => False
  | Update _ JsNumber.NaN => False
  | _ => True
  end.

(** What a call of the store does to the cart, as calls on this cart. *)
Definition ofOp (op : Op) : list Call :=
  match op with
  | OpAddToCart product quantity => [Add product (JsNumber.Int quantity)]
  | OpRemoveFromCart productId => [Remove productId]
  | OpUpdateCartQuantity productId quantity =>
      [Update productId (JsNumber.Int quantity)]
  | OpClearCart => [Clear]
  | OpPlaceOrder _ _ _ (_ :: _) => [Clear]
  | _ => []
  end.
End JsCart.

Example toString_examples :
  toString 0 = "0"%string /\ toString 1700000000000 = "1700000000000"%string
  /\ toString (-5) = "-5"%string.
Proof. repeat split. Qed.

(** ** Auxiliary facts *)

Section Folds.
Context {A : Type} (f : A -> Z).

Lemma fold_left_plus_sigma (l : list A) (a : Z) :
  fold_left (fun acc x => acc + f x) l a = a + sigma f l.
Proof.
  revert a; induction l as [|x l IH]; intro a; simpl.
  - lia.
  - rewrite IH; lia.
Qed.

Lemma sigma_app (l1 l2 : list A) :
  sigma f (l1 ++ l2) = sigma f l1 + sigma f l2.
Proof.
  induction l1 as [|x l1 IH]; simpl; [reflexivity | rewrite IH; lia].
Qed.
End Folds.

Lemma subtotalOf_sigma (items : list CartItem.t) :
  subtotalOf items = sigma lineAmount items.
Proof.
  unfold subtotalOf.
  rewrite (fold_left_plus_sigma lineAmount); reflexivity.
Qed.

Lemma cartItemCount_sigma (s : Store) :
  cartItemCount s = sigma CartItem.quantity (cart s).
Proof.
  unfold cartItemCount.
  rewrite (fold_left_plus_sigma CartItem.quantity); reflexivity.
Qed.

Lemma store_eta (s : Store) :
  {| isAdmin := isAdmin s; products := products s;
     cart := cart s; orders := orders s |} = s.
Proof. destruct s; reflexivity. Qed.

(** ** placeOrder *)

(** C1: on a non-empty list of cart items, [placeOrder] appends exactly one
    order to the orders, whose total is the sum of price times quantity over
    the items plus the shipping constant, empties the cart, and returns the id
    of that order; products and admin flag are kept. *)
Theorem placeOrder_nonempty
    (s : Store) (nowId nowTs : Z) (customerInfo : CustomerInfo.t)
    (cartItems : list CartItem.t) (Hitems : cartItems <> []) :
  let s' := exec (placeOrder nowId nowTs customerInfo cartItems) s in
  exists order : Order.t,
    orders s' = orders s ++ [order]
    /\ Order.totalAmount order = sigma lineAmount cartItems + SHIPPING_COST
    /\ Order.items order = cartItems
    /\ Order.customerInfo order = customerInfo
    /\ Order.status order = Pending
    /\ cart s' = []
    /\ result (placeOrder nowId nowTs customerInfo cartItems) s = Some (Order.id order)
    /\ products s' = products s
    /\ isAdmin s' = isAdmin s.
Proof.
  destruct cartItems as [|item rest]; [congruence|].
  exists (newOrder nowId nowTs customerInfo (item :: rest)).
  repeat split.
  cbn [newOrder Order.totalAmount].
  rewrite subtotalOf_sigma; reflexivity.
Qed.

Lemma placeOrder_nonempty_witness :
  let items := [CartItem.ofProduct wallet 2; CartItem.ofProduct smartwatch 1] in
  let s := mkStore false initialProducts items [] in
  exists order : Order.t,
    orders (exec (placeOrder 1700000000000 1700000000000 sampleCustomer items) s)
      = [order]
    /\ Order.totalAmount order = 20250
    /\ cart (exec (placeOrder 1700000000000 1700000000000 sampleCustomer items) s) = []
    /\ result (placeOrder 1700000000000 1700000000000 sampleCustomer items) s
       = Some "1700000000000"%string.
Proof.
  intros items s.
  destruct (placeOrder_nonempty s 1700000000000 1700000000000 sampleCustomer items)
    as [order (Ho & Ht & _ & _ & _ & Hc & Hr & _)].
  - discriminate.
  - exists order. simpl in Ho. injection Ho as Ho. subst order.
    repeat split.
Defined.

(** The earlier copy of [placeOrder] stores the bare subtotal. *)
Lemma Legacy_placeOrder_total
    (s : Store) (nowId nowTs : Z) (customerInfo : CustomerInfo.t)
    (item : CartItem.t) (rest : list CartItem.t) :
  map Order.totalAmount
      (orders (exec (Legacy.placeOrder nowId nowTs customerInfo (item :: rest)) s))
  = map Order.totalAmount (orders s) ++ [sigma lineAmount (item :: rest)].
Proof.
  cbn [Legacy.placeOrder exec call bind setOrders clearCart setCart ret snd
       List.length Nat.eqb valueToStore orders].
  rewrite map_app. cbn [map Legacy.newOrder Order.totalAmount].
  rewrite subtotalOf_sigma; reflexivity.
Qed.

(** C2: on an empty list of items [placeOrder] returns null and the store
    (cart, orders, products, admin flag) is the store it was called on. *)
Theorem placeOrder_empty
    (s : Store) (nowId nowTs : Z) (customerInfo : CustomerInfo.t) :
  result (placeOrder nowId nowTs customerInfo []) s = None
  /\ exec (placeOrder nowId nowTs customerInfo []) s = s.
Proof. split; reflexivity. Qed.

(** ** login *)

(** C5: [login] returns true and sets the admin flag exactly when the email
    and the password are the two fixed constants; on every other pair it
    returns false and the store, admin flag included, is unchanged. *)
Theorem login_iff_credentials (s : Store) (email pass : string) :
  (result (login email pass) s = true
     <-> email = ADMIN_EMAIL /\ pass = ADMIN_PASSWORD)
  /\ (email = ADMIN_EMAIL /\ pass = ADMIN_PASSWORD ->
        result (login email pass) s = true
        /\ isAdmin (exec (login email pass) s) = true
        /\ products (exec (login email pass) s) = products s
        /\ cart (exec (login email pass) s) = cart s
        /\ orders (exec (login email pass) s) = orders s)
  /\ (~ (email = ADMIN_EMAIL /\ pass = ADMIN_PASSWORD) ->
        result (login email pass) s = false
        /\ exec (login email pass) s = s).
Proof.
  unfold login, result, exec, call.
  destruct (String.eqb_spec email ADMIN_EMAIL) as [He|He];
    destruct (String.eqb_spec pass ADMIN_PASSWORD) as [Hp|Hp]; simpl;
    (split; [split; [intro H; try discriminate; auto | intros [? ?]; tauto] |]);
    (split; [intros [? ?]; try contradiction; repeat split
            | intro Hn; try (exfalso; apply Hn; split; assumption);
              split; reflexivity]).
Qed.

Lemma login_iff_credentials_witness :
  (result (login "admin@example.com" "password123") initialStore = true
   /\ isAdmin (exec (login "admin@example.com" "password123") initialStore) = true)
  /\ (result (login "admin@example.com" "Password123") initialStore = false
      /\ exec (login "admin@example.com" "Password123") initialStore = initialStore).
Proof.
  split.
  - destruct (proj1 (proj2 (login_iff_credentials initialStore
                       "admin@example.com" "password123")))
      as (Hr & Ha & _).
    + split; reflexivity.
    + split; assumption.
  - apply (proj2 (proj2 (login_iff_credentials initialStore
                     "admin@example.com" "Password123"))).
    intros [_ H]. discriminate H.
Defined.

(** ** Derived aggregates *)

(** C6: the aggregates read from the store are their defining sums: the cart
    subtotal is the sum of price times quantity over the cart lines, the item
    count the sum of the quantities, and the total sales the sum of the order
    totals. *)
Theorem aggregates_are_sums (s : Store) :
  cartSubtotal s = sigma (fun item => CartItem.price item * CartItem.quantity item) (cart s)
  /\ cartItemCount s = sigma CartItem.quantity (cart s)
  /\ totalSalesAmount s = sigma Order.totalAmount (orders s).
Proof.
  repeat split.
  - apply subtotalOf_sigma.
  - apply cartItemCount_sigma.
  - unfold totalSalesAmount.
    rewrite (fold_left_plus_sigma Order.totalAmount); reflexivity.
Qed.

(** ** Cart lines and their ids *)

Section Lines.
Variable k : string.

Lemma find_line_none (c : list CartItem.t) :
  find (fun item => (CartItem.id item =? k)%string) c = None <-> ~ In k (ids c).
Proof.
  induction c as [|x c IH]; simpl.
  - tauto.
  - destruct (String.eqb_spec (CartItem.id x) k) as [E|E].
    + split; [discriminate | intro H; exfalso; apply H; left; exact E].
    + rewrite IH. tauto.
Qed.

Lemma find_line_some (c : list CartItem.t) :
  In k (ids c) ->
  exists x, find (fun item => (CartItem.id item =? k)%string) c = Some x.
Proof.
  intro Hin.
  destruct (find (fun item => (CartItem.id item =? k)%string) c) as [x|] eqn:E.
  - exists x; reflexivity.
  - apply find_line_none in E. contradiction.
Qed.

Lemma rewriteLines_absent (g : CartItem.t -> CartItem.t) (c : list CartItem.t) :
  ~ In k (ids c) -> rewriteLines k g c = c.
Proof.
  induction c as [|x c IH]; simpl; intro H; [reflexivity|].
  destruct (String.eqb_spec (CartItem.id x) k) as [E|E]; [tauto|].
  f_equal. apply IH. tauto.
Qed.

Lemma dropLines_absent (c : list CartItem.t) :
  ~ In k (ids c) -> dropLines k c = c.
Proof.
  induction c as [|x c IH]; simpl; intro H; [reflexivity|].
  destruct (String.eqb_spec (CartItem.id x) k) as [E|E]; [tauto|].
  simpl. f_equal. apply IH. tauto.
Qed.

Lemma rewriteLines_app (g : CartItem.t -> CartItem.t) (c1 c2 : list CartItem.t) :
  rewriteLines k g (c1 ++ c2) = rewriteLines k g c1 ++ rewriteLines k g c2.
Proof. apply map_app. Qed.

Lemma dropLines_app (c1 c2 : list CartItem.t) :
  dropLines k (c1 ++ c2) = dropLines k c1 ++ dropLines k c2.
Proof. apply filter_app. Qed.

(** With a single line of id [k], only that line is rewritten. *)
Lemma rewriteLines_single (g : CartItem.t -> CartItem.t)
    (l1 l2 : list CartItem.t) (x : CartItem.t) :
  CartItem.id x = k -> ~ In k (ids l1) -> ~ In k (ids l2) ->
  rewriteLines k g (l1 ++ x :: l2) = l1 ++ g x :: l2.
Proof.
  intros Hx H1 H2.
  rewrite rewriteLines_app, (rewriteLines_absent g l1 H1).
  simpl. rewrite (proj2 (String.eqb_eq _ _) Hx).
  fold (rewriteLines k g l2). rewrite (rewriteLines_absent g l2 H2).
  reflexivity.
Qed.

Lemma dropLines_single (l1 l2 : list CartItem.t) (x : CartItem.t) :
  CartItem.id x = k -> ~ In k (ids l1) -> ~ In k (ids l2) ->
  dropLines k (l1 ++ x :: l2) = l1 ++ l2.
Proof.
  intros Hx H1 H2.
  rewrite dropLines_app, (dropLines_absent l1 H1).
  simpl. rewrite (proj2 (String.eqb_eq _ _) Hx). simpl.
  fold (dropLines k l2). rewrite (dropLines_absent l2 H2).
  reflexivity.
Qed.

Lemma rewriteLines_ids (g : CartItem.t -> CartItem.t) (c : list CartItem.t) :
  (forall x, CartItem.id (g x) = CartItem.id x) ->
  ids (rewriteLines k g c) = ids c.
Proof.
  intro Hg. induction c as [|x c IH]; simpl; [reflexivity|].
  fold (rewriteLines k g c). fold (ids (rewriteLines k g c)). fold (ids c).
  rewrite IH. f_equal.
  destruct (CartItem.id x =? k)%string; [apply Hg | reflexivity].
Qed.

Lemma rewriteLines_nth (g : CartItem.t -> CartItem.t) (c : list CartItem.t)
    (i : nat) :
  nth_error (rewriteLines k g c) i
  = option_map (fun item => if (CartItem.id item =? k)%string then g item else item)
               (nth_error c i).
Proof. apply nth_error_map. Qed.

Lemma dropLines_In (c : list CartItem.t) (x : CartItem.t) :
  In x (dropLines k c) <-> In x c /\ CartItem.id x <> k.
Proof.
  unfold dropLines. rewrite filter_In.
  destruct (String.eqb_spec (CartItem.id x) k) as [E|E]; simpl;
    intuition congruence.
Qed.

Lemma dropLines_ids (c : list CartItem.t) : ~ In k (ids (dropLines k c)).
Proof.
  unfold ids. rewrite in_map_iff. intros [x [Hx Hin]].
  apply dropLines_In in Hin. tauto.
Qed.



End Lines.

(** The cart after each cart operation. *)
Lemma addToCart_cart (s : Store) (p : Product.t) (q : Z) :
  cart (exec (addToCart p q) s)
  = match find (fun item => (CartItem.id item =? Product.id p)%string) (cart s) with
    | Some _ =>
        rewriteLines (Product.id p)
          (fun item => CartItem.withQuantity item (CartItem.quantity item + q)) (cart s)
    | None => cart s ++ [CartItem.ofProduct p q]
    end.
Proof. reflexivity. Qed.

Lemma addToCart_cart_present (s : Store) (p : Product.t) (q : Z) :
  In (Product.id p) (ids (cart s)) ->
  cart (exec (addToCart p q) s)
  = rewriteLines (Product.id p)
      (fun item => CartItem.withQuantity item (CartItem.quantity item + q)) (cart s).
Proof.
  intro Hin. rewrite addToCart_cart.
  destruct (find_line_some _ _ Hin) as [x Hx]. rewrite Hx. reflexivity.
Qed.

Lemma addToCart_cart_absent (s : Store) (p : Product.t) (q : Z) :
  ~ In (Product.id p) (ids (cart s)) ->
  cart (exec (addToCart p q) s) = cart s ++ [CartItem.ofProduct p q].
Proof.
  intro Hin. rewrite addToCart_cart.
  rewrite (proj2 (find_line_none _ _) Hin). reflexivity.
Qed.

Lemma removeFromCart_cart (s : Store) (k : string) :
  cart (exec (removeFromCart k) s) = dropLines k (cart s).
Proof. reflexivity. Qed.

Lemma updateCartQuantity_cart (s : Store) (k : string) (q : Z) :
  cart (exec (updateCartQuantity k q) s)
  = if q <=? 0 then dropLines k (cart s)
    else rewriteLines k (fun item => CartItem.withQuantity item q) (cart s).
Proof. unfold updateCartQuantity. destruct (q <=? 0); reflexivity. Qed.

Lemma addToCart_unique (s : Store) (p : Product.t) (q : Z) :
  unique_lines (cart s) -> unique_lines (cart (exec (addToCart p q) s)).
Proof.
  unfold unique_lines. fold (ids (cart s)). intro Hnd.
  fold (ids (cart (exec (addToCart p q) s))).
  destruct (in_dec string_dec (Product.id p) (ids (cart s))) as [Hin|Hin].
  - rewrite (addToCart_cart_present s p q Hin).
    rewrite rewriteLines_ids; [exact Hnd | reflexivity].
  - rewrite (addToCart_cart_absent s p q Hin).
    unfold ids. rewrite map_app. simpl.
    apply NoDup_app; [exact Hnd | repeat constructor; simpl; tauto |].
    intros a Ha [Hb|[]]. subst a. exact (Hin Ha).
Qed.

(** ** addToCart *)

(** Adding [q] and then [q2] of a product leaves the cart that adding
    [q + q2] at once leaves. *)
Lemma addToCart_twice_cart (s : Store) (p : Product.t) (q q2 : Z) :
  cart (exec (addToCart p q2) (exec (addToCart p q) s))
  = cart (exec (addToCart p (q + q2)) s).
Proof.
  destruct (in_dec string_dec (Product.id p) (ids (cart s))) as [Hin|Hin].
  - assert (Hin' : In (Product.id p) (ids (cart (exec (addToCart p q) s)))).
    { rewrite (addToCart_cart_present s p q Hin).
      rewrite rewriteLines_ids; [exact Hin | reflexivity]. }
    rewrite (addToCart_cart_present _ p q2 Hin').
    rewrite (addToCart_cart_present s p q Hin).
    rewrite (addToCart_cart_present s p (q + q2) Hin).
    unfold rewriteLines. rewrite map_map. apply map_ext. intro item.
    destruct (CartItem.id item =? Product.id p)%string eqn:E; simpl.
    + rewrite E. unfold CartItem.withQuantity; simpl. f_equal. lia.
    + rewrite E. reflexivity.
  - assert (Hin' : In (Product.id p) (ids (cart (exec (addToCart p q) s)))).
    { rewrite (addToCart_cart_absent s p q Hin).
      unfold ids. rewrite map_app, in_app_iff. right. left. reflexivity. }
    rewrite (addToCart_cart_present _ p q2 Hin').
    rewrite (addToCart_cart_absent s p q Hin).
    rewrite (addToCart_cart_absent s p (q + q2) Hin).
    rewrite (rewriteLines_single (Product.id p) _ (cart s) [] (CartItem.ofProduct p q));
      [reflexivity | reflexivity | exact Hin | simpl; tauto].
Qed.

(** C3: when the cart has a line with the id of the product, [addToCart]
    adds [q] to the quantity of that line and adds no line: the cart keeps
    its length and its ids, every position holds the line it held, with the
    quantity raised where the id matches; otherwise one line for the product
    with quantity [q] is appended.  Lines keep pairwise distinct ids, and
    adding a product twice to a cart without it yields a single line whose
    quantity is the sum; on every cart, adding twice leaves the cart that
    adding the sum once leaves. *)
Theorem addToCart_merges_or_appends (s : Store) (p : Product.t) (q : Z) :
  let c := cart s in
  let c' := cart (exec (addToCart p q) s) in
  let raised item := CartItem.withQuantity item (CartItem.quantity item + q) in
  (In (Product.id p) (ids c) ->
     List.length c' = List.length c
     /\ ids c' = ids c
     /\ (forall i item, nth_error c i = Some item ->
           nth_error c' i
           = Some (if (CartItem.id item =? Product.id p)%string
                   then raised item else item))
     /\ (forall l1 item l2,
           c = l1 ++ item :: l2 -> CartItem.id item = Product.id p ->
           ~ In (Product.id p) (ids l1) -> ~ In (Product.id p) (ids l2) ->
           c' = l1 ++ raised item :: l2))
  /\ (~ In (Product.id p) (ids c) -> c' = c ++ [CartItem.ofProduct p q])
  /\ (unique_lines c -> unique_lines c')
  /\ (forall q2,
        ~ In (Product.id p) (ids c) ->
        cart (exec (addToCart p q2) (exec (addToCart p q) s))
        = c ++ [CartItem.ofProduct p (q + q2)])
  /\ (forall q2,
        cart (exec (addToCart p q2) (exec (addToCart p q) s))
        = cart (exec (addToCart p (q + q2)) s)).
Proof.
  intros c c' raised. subst c c'.
  split; [|split; [|split; [|split; [|intro q2; apply addToCart_twice_cart]]]];
    repeat split.
  - rewrite (addToCart_cart_present s p q H). apply length_map.
  - rewrite (addToCart_cart_present s p q H).
    apply rewriteLines_ids. reflexivity.
  - intros i item Hi. rewrite (addToCart_cart_present s p q H).
    rewrite rewriteLines_nth, Hi. reflexivity.
  - intros l1 item l2 Hc Hid H1 H2.
    rewrite (addToCart_cart_present s p q H), Hc.
    apply rewriteLines_single; assumption.
  - apply addToCart_cart_absent.
  - apply addToCart_unique.
  - intros q2 Hout. rewrite addToCart_twice_cart.
    apply addToCart_cart_absent. exact Hout.
Qed.

Lemma addToCart_merges_or_appends_witness :
  let s := mkStore false initialProducts [CartItem.ofProduct wallet 2] [] in
  cart (exec (addToCart wallet 3) s) = [CartItem.ofProduct wallet 5]
  /\ cart (exec (addToCart smartwatch 1) s)
     = [CartItem.ofProduct wallet 2; CartItem.ofProduct smartwatch 1]
  /\ cart (exec (addToCart smartwatch 4) (exec (addToCart smartwatch 1) s))
     = [CartItem.ofProduct wallet 2; CartItem.ofProduct smartwatch 5].
Proof.
  intro s.
  pose proof (addToCart_merges_or_appends s wallet 3) as Hw.
  pose proof (addToCart_merges_or_appends s smartwatch 1) as Hs.
  cbv zeta in Hw, Hs.
  destruct Hw as [Hmerge _]. destruct Hs as (_ & Happend & _ & Htwice & _).
  split; [|split].
  - destruct Hmerge as (_ & _ & _ & Hsplit).
    + simpl. left. reflexivity.
    + apply (Hsplit [] (CartItem.ofProduct wallet 2) []).
      * reflexivity.
      * reflexivity.
      * simpl. tauto.
      * simpl. tauto.
  - apply Happend. simpl. intros [H|[]]. discriminate H.
  - apply (Htwice 4). simpl. intros [H|[]]. discriminate H.
Defined.


(** ** updateCartQuantity and removeFromCart *)

(** C4: with a quantity of zero or less [updateCartQuantity] drops the lines
    of that id and keeps every other line, in order; with a positive
    quantity it overwrites the quantity of the lines of that id and keeps
    every other line as it is; with quantity zero it leaves the store that
    [removeFromCart] leaves.  Products, orders and admin flag are kept. *)
Theorem updateCartQuantity_removes_or_overwrites (s : Store) (k : string) (q : Z) :
  let c := cart s in
  let s' := exec (updateCartQuantity k q) s in
  (q <= 0 ->
     ~ In k (ids (cart s'))
     /\ (forall item, In item (cart s') <-> In item c /\ CartItem.id item <> k)
     /\ (forall l1 item l2,
           c = l1 ++ item :: l2 -> CartItem.id item = k ->
           ~ In k (ids l1) -> ~ In k (ids l2) -> cart s' = l1 ++ l2)
     /\ (~ In k (ids c) -> cart s' = c)
     /\ s' = exec (removeFromCart k) s)
  /\ (0 < q ->
        List.length (cart s') = List.length c
        /\ (forall i item, nth_error c i = Some item ->
              nth_error (cart s') i
              = Some (if (CartItem.id item =? k)%string
                      then CartItem.withQuantity item q else item))
        /\ (forall l1 item l2,
              c = l1 ++ item :: l2 -> CartItem.id item = k ->
              ~ In k (ids l1) -> ~ In k (ids l2) ->
              cart s' = l1 ++ CartItem.withQuantity item q :: l2)
        /\ (~ In k (ids c) -> cart s' = c))
  /\ exec (updateCartQuantity k 0) s = exec (removeFromCart k) s
  /\ products s' = products s /\ orders s' = orders s /\ isAdmin s' = isAdmin s.
Proof.
  intros c s'. subst c s'.
  split; [|split; [|split; [reflexivity|]]].
  - intro Hq. assert (E : (q <=? 0) = true) by (apply Z.leb_le; exact Hq).
    assert (Es : exec (updateCartQuantity k q) s = exec (removeFromCart k) s).
    { unfold updateCartQuantity. rewrite E. reflexivity. }
    rewrite Es, removeFromCart_cart.
    split; [apply dropLines_ids|].
    split; [intro item; apply dropLines_In|].
    split; [|split; [apply dropLines_absent | reflexivity]].
    intros l1 item l2 Hc Hid H1 H2. rewrite Hc.
    apply dropLines_single; assumption.
  - intro Hq. assert (E : (q <=? 0) = false) by (apply Z.leb_gt; exact Hq).
    rewrite updateCartQuantity_cart, E.
    split; [apply length_map|].
    split; [intros i item Hi; rewrite rewriteLines_nth, Hi; reflexivity|].
    split; [|apply rewriteLines_absent].
    intros l1 item l2 Hc Hid H1 H2. rewrite Hc.
    apply rewriteLines_single; assumption.
  - unfold updateCartQuantity. destruct (q <=? 0); repeat split.
Qed.

Lemma updateCartQuantity_removes_or_overwrites_witness :
  let s := mkStore false initialProducts
             [CartItem.ofProduct wallet 2; CartItem.ofProduct smartwatch 1] [] in
  cart (exec (updateCartQuantity "1" 0) s) = [CartItem.ofProduct smartwatch 1]
  /\ cart (exec (updateCartQuantity "2" 7) s)
     = [CartItem.ofProduct wallet 2; CartItem.ofProduct smartwatch 7].
Proof.
  intro s.
  pose proof (updateCartQuantity_removes_or_overwrites s "1" 0) as H0.
  pose proof (updateCartQuantity_removes_or_overwrites s "2" 7) as H7.
  cbv zeta in H0, H7.
  destruct H0 as [Hdrop _]. destruct H7 as (_ & Hset & _).
  split.
  - destruct Hdrop as (_ & _ & Hsplit & _); [lia|].
    apply (Hsplit [] (CartItem.ofProduct wallet 2) [CartItem.ofProduct smartwatch 1]).
    + reflexivity.
    + reflexivity.
    + simpl. tauto.
    + simpl. intros [H|[]]. discriminate H.
  - destruct Hset as (_ & _ & Hsplit & _); [lia|].
    apply (Hsplit [CartItem.ofProduct wallet 2] (CartItem.ofProduct smartwatch 1) []).
    + reflexivity.
    + reflexivity.
    + simpl. intros [H|[]]. discriminate H.
    + simpl. tauto.
Defined.

(** ** Invariants of the cart along sequences of calls *)

Lemma login_cart (s : Store) (email pass : string) :
  cart (exec (login email pass) s) = cart s.
Proof.
  unfold login.
  destruct ((email =? ADMIN_EMAIL)%string && (pass =? ADMIN_PASSWORD)%string)%bool;
    reflexivity.
Qed.

Lemma placeOrder_cart (s : Store) (nowId nowTs : Z) (ci : CustomerInfo.t)
    (cartItems : list CartItem.t) :
  cart (exec (placeOrder nowId nowTs ci cartItems) s)
  = match cartItems with [] => cart s | _ :: _ => [] end.
Proof. destruct cartItems; reflexivity. Qed.

(** What a call does to the cart: nothing, empty it, or one of the three
    cart updates. *)
Lemma step_cart (op : Op) (s : Store) :
  cart (step op s) = cart s
  \/ cart (step op s) = []
  \/ (exists p q, op = OpAddToCart p q)
  \/ (exists k, cart (step op s) = dropLines k (cart s))
  \/ (exists k q, 0 < q /\
        cart (step op s)
        = rewriteLines k (fun item => CartItem.withQuantity item q) (cart s)).
Proof.
  destruct op; simpl.
  - left. apply login_cart.
  - left. reflexivity.
  - left. reflexivity.
  - left. reflexivity.
  - left. reflexivity.
  - right. right. left. eauto.
  - right. right. right. left. exists productId. reflexivity.
  - rewrite updateCartQuantity_cart.
    destruct (Z.leb_spec quantity 0) as [Hq|Hq].
    + right. right. right. left. exists productId. reflexivity.
    + right. right. right. right. exists productId, quantity. split; [exact Hq|reflexivity].
  - right. left. reflexivity.
  - rewrite placeOrder_cart. destruct cartItems; [left | right; left]; reflexivity.
  - left. reflexivity.
Qed.



Lemma addToCart_positive (s : Store) (p : Product.t) (q : Z) :
  1 <= q -> quantities_positive (cart s) ->
  quantities_positive (cart (exec (addToCart p q) s)).
Proof.
  unfold quantities_positive. intros Hq Hc. rewrite addToCart_cart.
  destruct (find _ (cart s)).
  - unfold rewriteLines. rewrite Forall_map.
    apply (Forall_impl _ (P := fun item => 1 <= CartItem.quantity item)); [|exact Hc].
    intros item Hi. destruct (CartItem.id item =? Product.id p)%string; simpl; lia.
  - apply Forall_app. split; [exact Hc|]. constructor; [exact Hq | constructor].
Qed.

Lemma step_positive (op : Op) (s : Store) :
  add_quantity_clamped op -> quantities_positive (cart s) ->
  quantities_positive (cart (step op s)).
Proof.
  intros Hop Hc.
  destruct (step_cart op s)
    as [E | [E | [(p & q & E) | [(k & E) | (k & q & Hq & E)]]]].
  - rewrite E. exact Hc.
  - rewrite E. constructor.
  - subst op. simpl in *. apply addToCart_positive; assumption.
  - rewrite E. unfold quantities_positive, dropLines in *.
    rewrite Forall_forall in *. intros x Hx. apply filter_In in Hx.
    apply Hc. tauto.
  - rewrite E. unfold quantities_positive, rewriteLines in *.
    rewrite Forall_map.
    apply (Forall_impl _ (P := fun item => 1 <= CartItem.quantity item)); [|exact Hc].
    intros item Hi. destruct (CartItem.id item =? k)%string; simpl; lia.
Qed.

Lemma run_positive (ops : list Op) (s : Store) :
  Forall add_quantity_clamped ops -> quantities_positive (cart s) ->
  quantities_positive (cart (run ops s)).
Proof.
  unfold run. revert s. induction ops as [|op ops IH]; intros s Hops Hc; simpl.
  - exact Hc.
  - inversion Hops as [|? ? Hop Hrest]; subst.
    apply IH; [exact Hrest|]. apply step_positive; assumption.
Qed.

(** On a cart with two lines of one id, which no sequence of calls produces
    from the empty cart, the merge raises both lines. *)
Example addToCart_count_duplicate_lines :
  let s := mkStore false initialProducts
             [CartItem.ofProduct wallet 1; CartItem.ofProduct wallet 1] [] in
  cartItemCount s = 2
  /\ cartItemCount (exec (addToCart wallet 1) s) = 4.
Proof. split; reflexivity. Qed.

(** [addToCart] has no guard of its own on the quantity; its callers pass
    the default one or a clamped quantity.  Called with quantity zero on the
    empty cart it would leave a line of quantity zero, and with a negative
    quantity on an existing line a negative quantity. *)
Example addToCart_zero_quantity_line :
  cart (run [OpAddToCart wallet 0] initialStore) = [CartItem.ofProduct wallet 0]
  /\ ~ quantities_positive (cart (run [OpAddToCart wallet 0] initialStore))
  /\ map CartItem.quantity
       (cart (run [OpAddToCart wallet 2; OpAddToCart wallet (-5)] initialStore))
     = [-3].
Proof.
  split; [reflexivity|]. split; [|reflexivity].
  intro H. inversion H as [|x l Hq _]; subst. simpl in Hq. lia.
Qed.

(** With integer quantities: along every sequence of calls in which
    [addToCart] receives quantities of at least one, starting from a cart
    whose quantities are at least one, every line of the cart has a quantity
    of at least one; and [updateCartQuantity] with a quantity of zero or less
    leaves no line of that id.  The quantity [NaN] is treated in [JsCart]. *)
Lemma cart_quantities_stay_positive
    (s0 : Store) (ops : list Op)
    (Hstart : quantities_positive (cart s0))
    (Hops : Forall add_quantity_clamped ops) :
  quantities_positive (cart (run ops s0))
  /\ (forall k q, q <= 0 ->
        ~ In k (ids (cart (step (OpUpdateCartQuantity k q) (run ops s0))))
        /\ quantities_positive (cart (step (OpUpdateCartQuantity k q) (run ops s0)))).
Proof.
  assert (Hrun : quantities_positive (cart (run ops s0)))
    by (apply run_positive; assumption).
  split; [exact Hrun|].
  intros k q Hq. split.
  - simpl. rewrite updateCartQuantity_cart.
    rewrite (proj2 (Z.leb_le q 0) Hq). apply dropLines_ids.
  - apply step_positive; [exact I | exact Hrun].
Qed.

Lemma cart_quantities_stay_positive_witness :
  let ops := [OpAddToCart wallet 2; OpUpdateCartQuantity "1" 0;
              OpAddToCart smartwatch 1; OpUpdateCartQuantity "2" 5;
              OpAddToCart wallet 1; OpRemoveFromCart "2";
              OpPlaceOrder 1700000000000 1700000000001 sampleCustomer
                [CartItem.ofProduct wallet 1];
              OpAddToCart smartwatch 3; OpClearCart; OpAddToCart wallet 6] in
  cart (run ops initialStore) = [CartItem.ofProduct wallet 6]
  /\ quantities_positive (cart (run ops initialStore)).
Proof.
  intro ops. split; [reflexivity|].
  apply (cart_quantities_stay_positive initialStore ops).
  - constructor.
  - repeat constructor; simpl; lia.
Defined.

(** ** updateOrderStatus *)

Lemma updateOrderStatus_orders (s : Store) (orderId : string) (st : OrderStatus) :
  orders (exec (updateOrderStatus orderId st) s)
  = map (fun o => if (Order.id o =? orderId)%string
                  then Order.withStatus o st else o) (orders s).
Proof. reflexivity. Qed.

Lemma map_orders_absent (orderId : string) (st : OrderStatus) (l : list Order.t) :
  ~ In orderId (map Order.id l) ->
  map (fun o => if (Order.id o =? orderId)%string
                then Order.withStatus o st else o) l = l.
Proof.
  induction l as [|o l IH]; simpl; intro H; [reflexivity|].
  destruct (String.eqb_spec (Order.id o) orderId) as [E|E]; [tauto|].
  f_equal. apply IH. tauto.
Qed.

(** C8: [updateOrderStatus] keeps the number and the order of the orders;
    an order whose id matches gets the given status and keeps its id,
    customer, items, total, payment method and timestamp; every order of
    another id is kept as it is; products, cart and admin flag are kept; and
    when no order has the id the store is the store it was called on. *)
Theorem updateOrderStatus_changes_status_only
    (s : Store) (orderId : string) (st : OrderStatus) :
  let s' := exec (updateOrderStatus orderId st) s in
  List.length (orders s') = List.length (orders s)
  /\ (forall i o, nth_error (orders s) i = Some o ->
        exists o', nth_error (orders s') i = Some o'
          /\ Order.id o' = Order.id o
          /\ Order.customerInfo o' = Order.customerInfo o
          /\ Order.items o' = Order.items o
          /\ Order.totalAmount o' = Order.totalAmount o
          /\ Order.paymentMethod o' = Order.paymentMethod o
          /\ Order.timestamp o' = Order.timestamp o
          /\ (Order.id o = orderId -> Order.status o' = st)
          /\ (Order.id o <> orderId -> o' = o))
  /\ products s' = products s
  /\ cart s' = cart s
  /\ isAdmin s' = isAdmin s
  /\ (~ In orderId (map Order.id (orders s)) -> s' = s).
Proof.
  intro s'. subst s'.
  split; [rewrite updateOrderStatus_orders; apply length_map|].
  split.
  - intros i o Hi. rewrite updateOrderStatus_orders, nth_error_map, Hi. simpl.
    destruct (String.eqb_spec (Order.id o) orderId) as [E|E].
    + exists (Order.withStatus o st). repeat split. intro Hn. contradiction.
    + exists o. repeat split. intro Hy. contradiction.
  - split; [reflexivity|]. split; [reflexivity|]. split; [reflexivity|].
    intro Hout.
    unfold exec, call, updateOrderStatus, setOrders, valueToStore. simpl.
    rewrite (map_orders_absent orderId st (orders s) Hout).
    apply store_eta.
Qed.

Lemma updateOrderStatus_changes_status_only_witness :
  let o1 := newOrder 1700000000000 1700000000000 sampleCustomer
              [CartItem.ofProduct wallet 2] in
  let o2 := newOrder 1700000005000 1700000005000 sampleCustomer
              [CartItem.ofProduct smartwatch 1] in
  let s := mkStore true initialProducts [] [o1; o2] in
  exec (updateOrderStatus "1700000009999" Shipped) s = s
  /\ exists o', nth_error (orders (exec (updateOrderStatus "1700000005000" Shipped) s)) 1
                = Some o'
       /\ Order.totalAmount o' = 15250 /\ Order.status o' = Shipped.
Proof.
  intros o1 o2 s.
  pose proof (updateOrderStatus_changes_status_only s "1700000009999" Shipped) as Hno.
  pose proof (updateOrderStatus_changes_status_only s "1700000005000" Shipped) as Hyes.
  cbv zeta in Hno, Hyes.
  destruct Hno as (_ & _ & _ & _ & _ & Hsame).
  destruct Hyes as (_ & Hnth & _).
  split.
  - apply Hsame. simpl. intros [H|[H|[]]]; discriminate H.
  - destruct (Hnth 1%nat o2 eq_refl) as (o' & Ho' & _ & _ & _ & Ht & _ & _ & Hst & _).
    exists o'. split; [exact Ho'|]. split; [rewrite Ht; reflexivity|].
    apply Hst. reflexivity.
Defined.

(** ** addProduct *)

Lemma toString_inj (n m : Z) : toString n = toString m -> n = m.
Proof.
  unfold toString. intro H.
  apply DecimalZ.to_int_inj.
  assert (Hn : forall z, NilZero.int_of_string (NilZero.string_of_int (Z.to_int z))
                         = Some (Z.to_int z)).
  { intro z. apply NilZero.isi; destruct z; simpl; try discriminate;
      intro E; injection E as E;
      exact (DecimalPos.Unsigned.to_uint_nonnil _ E). }
  pose proof (Hn n) as H1. rewrite H, (Hn m) in H1.
  injection H1 as H1. symmetry. exact H1.
Qed.

(** Ids that render clock readings earlier than [now] differ from the id
    generated at [now]. *)
Lemma earlier_ids_fresh (now : Z) (ps : list Product.t) :
  Forall (fun p => exists t, t < now /\ Product.id p = toString t) ps ->
  ~ In (toString now) (map Product.id ps).
Proof.
  intros Hall Hin. apply in_map_iff in Hin. destruct Hin as [p [Hid Hp]].
  rewrite Forall_forall in Hall. destruct (Hall p Hp) as [t [Hlt Ht]].
  rewrite Ht in Hid. apply toString_inj in Hid. lia.
Qed.

(** C9, as stated, fails: the id is the clock reading, and a collection may
    hold it already.  Two products added at one reading of the clock share
    their id. *)
Lemma addProduct_same_clock_reading_collides :
  let d1 := ProductData.mk "Desk Lamp" 1800 EmptyString "A lamp." in
  let d2 := ProductData.mk "Desk Fan" 3200 EmptyString "A fan." in
  let s := exec (addProduct 1700000000000 d1) initialStore in
  let s' := exec (addProduct 1700000000000 d2) s in
  products s' = products s ++ [newProduct 1700000000000 d2]
  /\ In (Product.id (newProduct 1700000000000 d2)) (map Product.id (products s))
  /\ ~ NoDup (map Product.id (products s')).
Proof.
  intros d1 d2 s s'. split; [reflexivity|]. split.
  - simpl. do 6 right. left. reflexivity.
  - intro Hnd. simpl in Hnd.
    do 6 (apply NoDup_cons_iff in Hnd; destruct Hnd as [_ Hnd]).
    apply NoDup_cons_iff in Hnd. destruct Hnd as [Hnotin _].
    apply Hnotin. left. reflexivity.
Qed.

(** C9, amended: [addProduct] appends exactly one product, made of the given
    data and of the decimal numeral of the clock reading as id, and keeps
    cart, orders and admin flag, for every collection.  The new id differs
    from the id of every product of the collection exactly when none of them
    is that numeral; it does whenever every id of the collection is the
    numeral of an integer below the clock reading, as the ids generated at
    earlier readings and the seeded ids are.  The ids are pairwise distinct
    afterwards exactly when they were and the numeral was unused: when it is
    in use, two products share it. *)
Theorem addProduct_appends_clock_id
    (s : Store) (now : Z) (productData : ProductData.t) :
  let s' := exec (addProduct now productData) s in
  let p := newProduct now productData in
  products s' = products s ++ [p]
  /\ Product.id p = toString now
  /\ Product.name p = ProductData.name productData
  /\ Product.price p = ProductData.price productData
  /\ Product.image p = ProductData.image productData
  /\ Product.description p = ProductData.description productData
  /\ cart s' = cart s /\ orders s' = orders s /\ isAdmin s' = isAdmin s
  /\ (Forall (fun p0 => Product.id p0 <> Product.id p) (products s)
        <-> ~ In (toString now) (map Product.id (products s)))
  /\ (Forall (fun p0 => exists t, t < now /\ Product.id p0 = toString t)
             (products s) ->
        Forall (fun p0 => Product.id p0 <> Product.id p) (products s)
        /\ (NoDup (map Product.id (products s)) ->
              NoDup (map Product.id (products s'))))
  /\ (NoDup (map Product.id (products s'))
        <-> NoDup (map Product.id (products s))
            /\ ~ In (toString now) (map Product.id (products s))).
Proof.
  intros s' p. subst s' p.
  change (products (exec (addProduct now productData) s))
    with (products s ++ [newProduct now productData]).
  assert (Hiff : Forall (fun p0 => Product.id p0 <> Product.id (newProduct now productData))
                        (products s)
                 <-> ~ In (toString now) (map Product.id (products s))).
  { rewrite Forall_forall. split.
    - intros Hall Hin. apply in_map_iff in Hin. destruct Hin as [p0 [Hid Hp0]].
      exact (Hall p0 Hp0 Hid).
    - intros Hout p0 Hp0 Heq. apply Hout. simpl in Heq. rewrite <- Heq.
      apply in_map. exact Hp0. }
  assert (Hnd : NoDup (map Product.id (products s ++ [newProduct now productData]))
                <-> NoDup (map Product.id (products s))
                    /\ ~ In (toString now) (map Product.id (products s))).
  { rewrite map_app. cbn [map newProduct Product.id]. split.
    - intro H. apply NoDup_remove in H. rewrite app_nil_r in H. exact H.
    - intros [H1 H2]. apply NoDup_app; [exact H1 | repeat constructor; simpl; tauto |].
      intros a Ha [Hb|[]]. subst a. exact (H2 Ha). }
  do 9 (split; [reflexivity|]).
  split; [exact Hiff|]. split; [|exact Hnd].
  intro Hearlier. pose proof (earlier_ids_fresh now (products s) Hearlier) as Hout.
  split; [apply Hiff; exact Hout|].
  intro H. apply Hnd. split; assumption.
Qed.

Lemma addProduct_appends_clock_id_witness :
  let d := ProductData.mk "Desk Lamp" 1800 EmptyString "A lamp." in
  products (exec (addProduct 1700000000000 d) initialStore)
    = initialProducts ++ [newProduct 1700000000000 d]
  /\ Forall (fun p0 => Product.id p0 <> "1700000000000"%string) initialProducts
  /\ NoDup (map Product.id (products (exec (addProduct 1700000000000 d) initialStore))).
Proof.
  intro d.
  pose proof (addProduct_appends_clock_id initialStore 1700000000000 d) as H.
  cbv zeta in H.
  destruct H as (Hp & _ & _ & _ & _ & _ & _ & _ & _ & _ & Hearlier & _).
  destruct Hearlier as [Hall Hnd].
  - simpl. repeat constructor.
    + exists 1; split; [lia | reflexivity].
    + exists 2; split; [lia | reflexivity].
    + exists 3; split; [lia | reflexivity].
    + exists 4; split; [lia | reflexivity].
    + exists 5; split; [lia | reflexivity].
    + exists 6; split; [lia | reflexivity].
  - split; [exact Hp|]. split; [exact Hall|].
    apply Hnd. simpl. repeat constructor; simpl; intuition discriminate.
Defined.

(** * Further properties of the provider and of the pages that use it *)

(** ** Product lookups *)

Section ProductLookups.
Variable k : string.

Lemma find_product_filter (k' : string) (l : list Product.t) :
  find (fun p => (Product.id p =? k')%string)
       (filter (fun p => negb (Product.id p =? k)%string) l)
  = if (k' =? k)%string then None
    else find (fun p => (Product.id p =? k')%string) l.
Proof.
  induction l as [|p l IH]; simpl.
  - destruct (k' =? k)%string; reflexivity.
  - destruct (String.eqb_spec (Product.id p) k) as [Ek|Ek]; simpl.
    + rewrite IH. destruct (String.eqb_spec k' k) as [E|E]; [reflexivity|].
      destruct (String.eqb_spec (Product.id p) k') as [E'|E']; [congruence|reflexivity].
    + destruct (String.eqb_spec (Product.id p) k') as [E'|E'].
      * destruct (String.eqb_spec k' k) as [E|E]; [congruence|reflexivity].
      * exact IH.
Qed.

Lemma filter_product_absent (l : list Product.t) :
  find (fun p => (Product.id p =? k)%string) l = None ->
  filter (fun p => negb (Product.id p =? k)%string) l = l.
Proof.
  induction l as [|p l IH]; simpl; [reflexivity|].
  destruct (Product.id p =? k)%string; [discriminate|].
  intro H. simpl. f_equal. apply IH. exact H.
Qed.

Lemma find_product_app (l1 l2 : list Product.t) :
  find (fun p => (Product.id p =? k)%string) (l1 ++ l2)
  = match find (fun p => (Product.id p =? k)%string) l1 with
    | Some p => Some p
    | None => find (fun p => (Product.id p =? k)%string) l2
    end.
Proof.
  induction l1 as [|p l1 IH]; simpl; [reflexivity|].
  destruct (Product.id p =? k)%string; [reflexivity | exact IH].
Qed.
End ProductLookups.

Section EditedProduct.
Variable u : Product.t.

Let replaced (l : list Product.t) : list Product.t :=
  map (fun p => if (Product.id p =? Product.id u)%string then u else p) l.

Lemma replaced_ids (l : list Product.t) :
  map Product.id (replaced l) = map Product.id l.
Proof.
  unfold replaced. induction l as [|p l IH]; simpl; [reflexivity|].
  rewrite IH. f_equal.
  destruct (String.eqb_spec (Product.id p) (Product.id u)) as [E|E]; congruence.
Qed.

Lemma replaced_find (k : string) (l : list Product.t) :
  find (fun p => (Product.id p =? k)%string) (replaced l)
  = match find (fun p => (Product.id p =? k)%string) l with
    | Some p => Some (if (k =? Product.id u)%string then u else p)
    | None => None
    end.
Proof.
  unfold replaced. induction l as [|p l IH]; simpl; [reflexivity|].
  destruct (String.eqb_spec (Product.id p) (Product.id u)) as [E|E].
  - destruct (String.eqb_spec (Product.id u) k) as [E1|E1].
    + destruct (String.eqb_spec (Product.id p) k) as [E2|E2]; [|congruence].
      rewrite (proj2 (String.eqb_eq k (Product.id u))); congruence.
    + destruct (String.eqb_spec (Product.id p) k) as [E2|E2]; [congruence|].
      exact IH.
  - destruct (String.eqb_spec (Product.id p) k) as [E2|E2]; [|exact IH].
    rewrite (proj2 (String.eqb_neq k (Product.id u))); congruence.
Qed.

Lemma replaced_absent (l : list Product.t) :
  find (fun p => (Product.id p =? Product.id u)%string) l = None ->
  replaced l = l.
Proof.
  unfold replaced. induction l as [|p l IH]; simpl; [reflexivity|].
  destruct (Product.id p =? Product.id u)%string; [discriminate|].
  intro H. f_equal. apply IH. exact H.
Qed.
End EditedProduct.

(** X1: after [deleteProduct] no product answers to the id, every other id
    finds the product it found before, and the cart is left alone: a line of
    the deleted product stays in the cart.  Orders and admin flag are kept,
    and deleting an unknown id changes nothing. *)
Theorem deleteProduct_lookup (s : Store) (k : string) :
  let s' := exec (deleteProduct k) s in
  getProductById k s' = None
  /\ (forall k', k' <> k -> getProductById k' s' = getProductById k' s)
  /\ cart s' = cart s
  /\ orders s' = orders s
  /\ isAdmin s' = isAdmin s
  /\ (getProductById k s = None -> s' = s).
Proof.
  intro s'. subst s'. unfold getProductById, exec, call, deleteProduct, setProducts.
  simpl.
  split; [rewrite find_product_filter, String.eqb_refl; reflexivity|].
  split.
  { intros k' Hk. rewrite find_product_filter.
    rewrite (proj2 (String.eqb_neq k' k) Hk). reflexivity. }
  do 3 (split; [reflexivity|]).
  intro Habs. rewrite (filter_product_absent k _ Habs). apply store_eta.
Qed.

Lemma deleteProduct_lookup_witness :
  let s := exec (addToCart wallet 2) initialStore in
  getProductById "1" s = Some wallet
  /\ getProductById "1" (exec (deleteProduct "1") s) = None
  /\ getProductById "2" (exec (deleteProduct "1") s) = Some smartwatch
  /\ cart (exec (deleteProduct "1") s) = [CartItem.ofProduct wallet 2]
  /\ exec (deleteProduct "77") s = s.
Proof.
  intro s.
  pose proof (deleteProduct_lookup s "1") as H1.
  pose proof (deleteProduct_lookup s "77") as H77.
  cbv zeta in H1, H77.
  destruct H1 as (Hgone & Hother & Hcart & _).
  destruct H77 as (_ & _ & _ & _ & _ & Hsame).
  split; [reflexivity|]. split; [exact Hgone|].
  split; [rewrite (Hother "2"%string); [reflexivity | discriminate]|].
  split; [rewrite Hcart; reflexivity|].
  apply Hsame. reflexivity.
Defined.

(** X2: [editProduct] keeps the ids of the products, in order.  When the id
    of the edited product is known, looking it up afterwards gives the
    edited product; when it is unknown nothing changes: nothing is added.
    Every other id finds the product it found before, and the cart is kept:
    its lines keep the name and price they were added with. *)
Theorem editProduct_lookup (s : Store) (u : Product.t) :
  let s' := exec (editProduct u) s in
  map Product.id (products s') = map Product.id (products s)
  /\ (getProductById (Product.id u) s <> None ->
        getProductById (Product.id u) s' = Some u)
  /\ (getProductById (Product.id u) s = None -> s' = s)
  /\ (forall k, k <> Product.id u -> getProductById k s' = getProductById k s)
  /\ cart s' = cart s
  /\ orders s' = orders s
  /\ isAdmin s' = isAdmin s.
Proof.
  intro s'. subst s'. unfold getProductById, exec, call, editProduct, setProducts.
  simpl.
  split; [apply replaced_ids|].
  split.
  { intro Hknown. rewrite replaced_find.
    destruct (find _ (products s)); [|congruence].
    rewrite String.eqb_refl. reflexivity. }
  split.
  { intro Habs. rewrite (replaced_absent u _ Habs). apply store_eta. }
  split; [|repeat split].
  intros k Hk. rewrite replaced_find.
  destruct (find _ (products s)); [|reflexivity].
  rewrite (proj2 (String.eqb_neq k (Product.id u)) Hk). reflexivity.
Qed.

Lemma editProduct_lookup_witness :
  let cheaper := Product.mk "1" "Classic Leather Wallet" 1900
                   (Product.image wallet) (Product.description wallet) in
  let unknown := Product.mk "77" "Desk Lamp" 1800 EmptyString "A lamp." in
  let s := exec (addToCart wallet 2) initialStore in
  getProductById "1" (exec (editProduct cheaper) s) = Some cheaper
  /\ getProductById "2" (exec (editProduct cheaper) s) = Some smartwatch
  /\ cartSubtotal (exec (editProduct cheaper) s) = 5000
  /\ exec (editProduct unknown) s = s.
Proof.
  intros cheaper unknown s.
  pose proof (editProduct_lookup s cheaper) as Hc.
  pose proof (editProduct_lookup s unknown) as Hu.
  cbv zeta in Hc, Hu.
  destruct Hc as (_ & Hfound & _ & Hother & Hcart & _).
  destruct Hu as (_ & _ & Hsame & _).
  split; [apply Hfound; discriminate|].
  split; [rewrite (Hother "2"%string); [reflexivity | discriminate]|].
  split; [unfold cartSubtotal; rewrite Hcart; reflexivity|].
  apply Hsame. reflexivity.
Defined.

(** X3: after [addProduct] every id that found a product finds the same
    product: when the generated id is in use already, lookups of it keep
    answering with the earlier product and never with the new one.  When the
    generated id is unused, it finds the new product. *)
Theorem addProduct_lookup (s : Store) (now : Z) (productData : ProductData.t) :
  let s' := exec (addProduct now productData) s in
  (forall k, getProductById k s <> None -> getProductById k s' = getProductById k s)
  /\ (forall k, k <> toString now -> getProductById k s' = getProductById k s)
  /\ (getProductById (toString now) s = None ->
        getProductById (toString now) s' = Some (newProduct now productData)).
Proof.
  intro s'. subst s'. unfold getProductById, exec, call, addProduct, setProducts.
  simpl. split; [|split].
  - intros k Hk. rewrite find_product_app.
    destruct (find _ (products s)); [reflexivity | congruence].
  - intros k Hk. rewrite find_product_app.
    destruct (find _ (products s)); [reflexivity|]. simpl.
    rewrite (proj2 (String.eqb_neq (toString now) k)); [reflexivity | congruence].
  - intro Habs. rewrite find_product_app, Habs. simpl.
    rewrite String.eqb_refl. reflexivity.
Qed.

Lemma addProduct_lookup_witness :
  let lamp := ProductData.mk "Desk Lamp" 1800 EmptyString "A lamp." in
  let fan := ProductData.mk "Desk Fan" 3200 EmptyString "A fan." in
  let s := exec (addProduct 1700000000000 lamp) initialStore in
  getProductById "1700000000000" s = Some (newProduct 1700000000000 lamp)
  /\ getProductById "1700000000000" (exec (addProduct 1700000000000 fan) s)
     = Some (newProduct 1700000000000 lamp).
Proof.
  intros lamp fan s.
  pose proof (addProduct_lookup initialStore 1700000000000 lamp) as H0.
  pose proof (addProduct_lookup s 1700000000000 fan) as H1.
  cbv zeta in H0, H1.
  destruct H0 as (_ & _ & Hnew). destruct H1 as (Hkept & _).
  assert (Hs : getProductById "1700000000000" s
               = Some (newProduct 1700000000000 lamp))
    by (apply Hnew; reflexivity).
  split; [exact Hs|].
  rewrite (Hkept "1700000000000"%string); [exact Hs|].
  rewrite Hs. discriminate.
Defined.

(** ** The admin flag and the protected route *)

Lemma step_isAdmin (op : Op) (s : Store) :
  isAdmin (step op s)
  = if isAdminLogin op then true else if isLogout op then false else isAdmin s.
Proof.
  destruct op; try reflexivity.
  - simpl. unfold login.
    destruct ((email =? ADMIN_EMAIL)%string && (pass =? ADMIN_PASSWORD)%string)%bool;
      reflexivity.
  - simpl. unfold updateCartQuantity. destruct (quantity <=? 0); reflexivity.
  - simpl. destruct cartItems; reflexivity.
Qed.

Lemma isAdminLogin_eq (op : Op) :
  isAdminLogin op = true -> op = OpLogin ADMIN_EMAIL ADMIN_PASSWORD.
Proof.
  destruct op; simpl; try discriminate.
  intro H. apply andb_prop in H. destruct H as [He Hp].
  apply String.eqb_eq in He, Hp. subst. reflexivity.
Qed.

Lemma run_app (ops1 ops2 : list Op) (s : Store) :
  run (ops1 ++ ops2) s = run ops2 (run ops1 s).
Proof. unfold run. apply fold_left_app. Qed.

Lemma run_isAdmin_without_login (ops : list Op) (s : Store) :
  existsb isAdminLogin ops = false ->
  isAdmin (run ops s) = (isAdmin s && negb (existsb isLogout ops))%bool.
Proof.
  unfold run. revert s. induction ops as [|op ops IH]; intros s H; simpl in *.
  - destruct (isAdmin s); reflexivity.
  - apply orb_false_elim in H. destruct H as [Hop Hops].
    rewrite (IH _ Hops), step_isAdmin, Hop.
    destruct (isLogout op); simpl; [|reflexivity].
    destruct (isAdmin s); reflexivity.
Qed.

(** X4: the protected route renders the admin page only after a login with
    the fixed credentials: from a store whose admin flag is off, if the
    route renders its children after a sequence of calls, the sequence
    contains such a login.  No other operation turns the flag on. *)
Theorem protected_route_needs_login
    (s : Store) (ops : list Op)
    (Hoff : isAdmin s = false)
    (Hin : ProtectedRoute (run ops s) = RenderChildren) :
  In (OpLogin ADMIN_EMAIL ADMIN_PASSWORD) ops.
Proof.
  destruct (existsb isAdminLogin ops) eqn:E.
  - apply existsb_exists in E. destruct E as [op [Hop Hlogin]].
    apply isAdminLogin_eq in Hlogin. subst op. exact Hop.
  - unfold ProtectedRoute in Hin.
    rewrite (run_isAdmin_without_login ops s E), Hoff in Hin.
    discriminate Hin.
Qed.

Lemma protected_route_needs_login_witness :
  In (OpLogin ADMIN_EMAIL ADMIN_PASSWORD)
     [OpLogin "admin@example.com" "letmein"; OpAddToCart wallet 1;
      OpLogin "admin@example.com" "password123";
      OpUpdateOrderStatus "1700000000000" Shipped].
Proof.
  apply (protected_route_needs_login initialStore).
  - reflexivity.
  - reflexivity.
Defined.

(** X5: after [logout], whatever was called before it, the protected route
    redirects to the login page, and keeps doing so along every sequence of
    calls without a login with the fixed credentials. *)
Theorem logout_closes_protected_route
    (s : Store) (before after : list Op)
    (Hafter : existsb isAdminLogin after = false) :
  ProtectedRoute (run (before ++ OpLogout :: after) s) = NavigateToLogin
  /\ isAdmin (run (before ++ OpLogout :: after) s) = false.
Proof.
  assert (H : isAdmin (run (before ++ OpLogout :: after) s) = false).
  { rewrite run_app.
    change (run (OpLogout :: after) (run before s))
      with (run after (step OpLogout (run before s))).
    rewrite (run_isAdmin_without_login after _ Hafter). reflexivity. }
  split; [|exact H]. unfold ProtectedRoute. rewrite H. reflexivity.
Qed.

Lemma logout_closes_protected_route_witness :
  ProtectedRoute
    (run ([OpLogin "admin@example.com" "password123"; OpAddToCart wallet 1]
          ++ OpLogout :: [OpLogin "admin@example.com" "Password123";
                          OpLogin "admin" "password123"; OpClearCart])
         initialStore)
  = NavigateToLogin.
Proof.
  apply (logout_closes_protected_route initialStore
           [OpLogin "admin@example.com" "password123"; OpAddToCart wallet 1]
           [OpLogin "admin@example.com" "Password123";
            OpLogin "admin" "password123"; OpClearCart]).
  reflexivity.
Defined.

(** ** Cart aggregates under the cart operations *)

Lemma cartSubtotal_sigma (s : Store) : cartSubtotal s = sigma lineAmount (cart s).
Proof. apply subtotalOf_sigma. Qed.







(** X8: when the cart has a line of the id of the product, [addToCart] uses
    nothing of the product but its id: every product of that id leaves the
    same store, and the lines keep their names and prices, whatever price
    the product passed carries.  When the cart has no line of that id, the
    subtotal rises by the price of the product times [q]. *)
Theorem addToCart_uses_line_price (s : Store) (p : Product.t) (q : Z) :
  (In (Product.id p) (ids (cart s)) ->
     (forall p', Product.id p' = Product.id p ->
        exec (addToCart p' q) s = exec (addToCart p q) s)
     /\ map CartItem.name (cart (exec (addToCart p q) s))
        = map CartItem.name (cart s)
     /\ map CartItem.price (cart (exec (addToCart p q) s))
        = map CartItem.price (cart s))
  /\ (~ In (Product.id p) (ids (cart s)) ->
        cartSubtotal (exec (addToCart p q) s)
        = cartSubtotal s + Product.price p * q).
Proof.
  split.
  - intro Hin. destruct (find_line_some _ _ Hin) as [x Hx].
    split; [|split].
    + intros p' Hid. unfold exec, call, addToCart, setCart, valueToStore. simpl.
      rewrite Hid, Hx. reflexivity.
    + rewrite (addToCart_cart_present s p q Hin). unfold rewriteLines.
      rewrite map_map. apply map_ext. intro item.
      destruct (CartItem.id item =? Product.id p)%string; reflexivity.
    + rewrite (addToCart_cart_present s p q Hin). unfold rewriteLines.
      rewrite map_map. apply map_ext. intro item.
      destruct (CartItem.id item =? Product.id p)%string; reflexivity.
  - intro Hout. unfold cartSubtotal, subtotalOf.
    rewrite (addToCart_cart_absent s p q Hout), fold_left_app. reflexivity.
Qed.

Lemma addToCart_uses_line_price_witness :
  let dearer := Product.mk "1" "Classic Leather Wallet" 9900
                  (Product.image wallet) (Product.description wallet) in
  let s := run [OpAddToCart wallet 2] initialStore in
  exec (addToCart dearer 3) s = exec (addToCart wallet 3) s
  /\ cartSubtotal (exec (addToCart smartwatch 1) s) = 5000 + 15000 * 1.
Proof.
  intros dearer s.
  pose proof (addToCart_uses_line_price s wallet 3) as Hw.
  pose proof (addToCart_uses_line_price s smartwatch 1) as Hs.
  destruct Hw as [Hmerge _]. destruct Hs as [_ Happend].
  split.
  - destruct Hmerge as [Hany _]; [left; reflexivity|].
    apply (Hany dearer). reflexivity.
  - apply Happend. simpl. intros [H|[]]. discriminate H.
Defined.

(** ** Operations in sequence *)

(** X9: a product edited after it was put in the cart keeps its old line:
    [editProduct] leaves the cart alone, and a later [addToCart] of the
    edited product merges into the line by id, raising its quantity and
    keeping the name and the price the line was created with. *)
Theorem edited_product_keeps_cart_line
    (s : Store) (p edited : Product.t) (q q2 : Z)
    (Hid : Product.id edited = Product.id p)
    (Hout : ~ In (Product.id p) (ids (cart s))) :
  let s1 := exec (addToCart p q) s in
  let s2 := exec (editProduct edited) s1 in
  let s3 := exec (addToCart edited q2) s2 in
  cart s2 = cart s ++ [CartItem.ofProduct p q]
  /\ cart s3 = cart s ++ [CartItem.ofProduct p (q + q2)]
  /\ cartSubtotal s3 = cartSubtotal s + Product.price p * (q + q2).
Proof.
  intros s1 s2 s3.
  assert (H1 : cart s1 = cart s ++ [CartItem.ofProduct p q])
    by (apply addToCart_cart_absent; exact Hout).
  assert (H2 : cart s2 = cart s ++ [CartItem.ofProduct p q]) by exact H1.
  assert (H3 : cart s3 = cart s ++ [CartItem.ofProduct p (q + q2)]).
  { unfold s3. rewrite addToCart_cart_present.
    - rewrite H2, Hid.
      rewrite (rewriteLines_single (Product.id p) _ (cart s) []
                 (CartItem.ofProduct p q));
        [reflexivity | reflexivity | exact Hout | simpl; tauto].
    - rewrite H2, Hid. unfold ids. rewrite map_app, in_app_iff.
      right. left. reflexivity. }
  split; [exact H2|]. split; [exact H3|].
  rewrite !cartSubtotal_sigma, H3, sigma_app. simpl.
  change (lineAmount (CartItem.ofProduct p (q + q2)))
    with (Product.price p * (q + q2)). lia.
Qed.

Lemma edited_product_keeps_cart_line_witness :
  let dearer := Product.mk "1" "Leather Wallet, new edition" 9900
                  (Product.image wallet) (Product.description wallet) in
  let s3 := exec (addToCart dearer 1)
              (exec (editProduct dearer) (exec (addToCart wallet 2) initialStore)) in
  cart s3 = [CartItem.ofProduct wallet 3] /\ cartSubtotal s3 = 0 + 2500 * (2 + 1).
Proof.
  intro dearer.
  destruct (edited_product_keeps_cart_line initialStore wallet dearer 2 1)
    as (_ & Hcart & Hsub).
  - reflexivity.
  - simpl. tauto.
  - split; [exact Hcart | exact Hsub].
Defined.

(** X10: an order placed as the checkout page places it, on the cart of the
    render, is stored with the total the page displays, the cart subtotal
    plus the shipping cost; the total sales rise by that amount and the cart
    aggregates fall to zero. *)
Theorem placeOrder_from_checkout
    (s : Store) (nowId nowTs : Z) (customerInfo : CustomerInfo.t)
    (Hcart : cart s <> []) :
  let s' := exec (placeOrder nowId nowTs customerInfo (cart s)) s in
  map Order.totalAmount (orders s')
    = map Order.totalAmount (orders s) ++ [totalAmountWithShipping s]
  /\ totalSalesAmount s' = totalSalesAmount s + totalAmountWithShipping s
  /\ cartSubtotal s' = 0
  /\ cartItemCount s' = 0.
Proof.
  intro s'. subst s'. destruct (cart s) as [|item rest] eqn:E; [congruence|].
  assert (Ho : orders (exec (placeOrder nowId nowTs customerInfo (item :: rest)) s)
               = orders s ++ [newOrder nowId nowTs customerInfo (item :: rest)])
    by reflexivity.
  assert (Ht : Order.totalAmount (newOrder nowId nowTs customerInfo (item :: rest))
               = totalAmountWithShipping s).
  { unfold totalAmountWithShipping, cartSubtotal. rewrite E. reflexivity. }
  split; [rewrite Ho, map_app; cbn [map]; rewrite Ht; reflexivity|].
  split; [|split; reflexivity].
  unfold totalSalesAmount.
  rewrite !(fold_left_plus_sigma Order.totalAmount), Ho, sigma_app. cbn [sigma].
  rewrite Ht. lia.
Qed.

Lemma placeOrder_from_checkout_witness :
  let s := run [OpAddToCart wallet 2; OpAddToCart smartwatch 1] initialStore in
  totalAmountWithShipping s = 20250
  /\ totalSalesAmount
       (exec (placeOrder 1700000000000 1700000000000 sampleCustomer (cart s)) s)
     = 0 + 20250.
Proof.
  intro s. split; [reflexivity|].
  destruct (placeOrder_from_checkout s 1700000000000 1700000000000 sampleCustomer)
    as (_ & Hsales & _).
  - discriminate.
  - exact Hsales.
Defined.

Lemma orderRecord_withStatus (o : Order.t) (st : OrderStatus) :
  orderRecord (Order.withStatus o st) = orderRecord o.
Proof. reflexivity. Qed.

Lemma step_order_records (op : Op) (s : Store) :
  exists newer,
    map orderRecord (orders (step op s)) = map orderRecord (orders s) ++ newer
    /\ (List.length newer <= 1)%nat.
Proof.
  destruct op; cbn [step];
    try (exists []; rewrite app_nil_r; split; [reflexivity | auto]).
  - exists []. rewrite app_nil_r. split; [|auto]. unfold login.
    destruct ((email =? ADMIN_EMAIL)%string && (pass =? ADMIN_PASSWORD)%string)%bool;
      reflexivity.
  - exists []. rewrite app_nil_r. split; [|auto]. unfold updateCartQuantity.
    destruct (quantity <=? 0); reflexivity.
  - destruct cartItems as [|item rest].
    + exists []. rewrite app_nil_r. split; [reflexivity | auto].
    + exists [orderRecord (newOrder nowId nowTs customerInfo (item :: rest))].
      split; [|auto].
      change (orders (exec (placeOrder nowId nowTs customerInfo (item :: rest)) s))
        with (orders s ++ [newOrder nowId nowTs customerInfo (item :: rest)]).
      apply map_app.
  - exists []. rewrite app_nil_r. split; [|auto].
    rewrite updateOrderStatus_orders, map_map. apply map_ext.
    intro o. destruct (Order.id o =? orderId)%string; reflexivity.
Qed.

(** X11: no sequence of calls of the operations deletes, reorders or
    rewrites an order, apart from its status: the id, customer, items, total,
    payment method and timestamp of the orders of the store reappear, in
    order, at the head of the orders after the calls, and the orders grow by
    at most one per call. *)
Theorem orders_history_kept (s : Store) (ops : list Op) :
  exists newer,
    map orderRecord (orders (run ops s)) = map orderRecord (orders s) ++ newer
    /\ (List.length newer <= List.length ops)%nat.
Proof.
  unfold run. revert s. induction ops as [|op ops IH]; intro s; simpl.
  - exists []. rewrite app_nil_r. split; [reflexivity | auto].
  - destruct (IH (step op s)) as (n2 & H2 & L2).
    destruct (step_order_records op s) as (n1 & H1 & L1).
    exists (n1 ++ n2). rewrite H2, H1, <- app_assoc. split; [reflexivity|].
    rewrite length_app. lia.
Qed.

(** X12: updaters issued from one event handler all read the value of the
    render: of two [addToCart] calls made in one handler only the second
    reaches the cart, whereas the same calls made from two renders both do. *)
Theorem addToCart_twice_in_one_handler
    (s : Store) (p1 p2 : Product.t) (q1 q2 : Z)
    (Hdiff : Product.id p1 <> Product.id p2)
    (H1 : ~ In (Product.id p1) (ids (cart s)))
    (H2 : ~ In (Product.id p2) (ids (cart s))) :
  exec (addToCart p1 q1 ;; addToCart p2 q2) s = exec (addToCart p2 q2) s
  /\ cart (exec (addToCart p1 q1 ;; addToCart p2 q2) s)
     = cart s ++ [CartItem.ofProduct p2 q2]
  /\ cart (run [OpAddToCart p1 q1; OpAddToCart p2 q2] s)
     = cart s ++ [CartItem.ofProduct p1 q1; CartItem.ofProduct p2 q2].
Proof.
  split; [reflexivity|]. split.
  - change (cart (exec (addToCart p1 q1 ;; addToCart p2 q2) s))
      with (cart (exec (addToCart p2 q2) s)).
    apply addToCart_cart_absent. exact H2.
  - change (cart (run [OpAddToCart p1 q1; OpAddToCart p2 q2] s))
      with (cart (exec (addToCart p2 q2) (exec (addToCart p1 q1) s))).
    rewrite addToCart_cart_absent.
    + rewrite (addToCart_cart_absent s p1 q1 H1), <- app_assoc. reflexivity.
    + rewrite (addToCart_cart_absent s p1 q1 H1).
      unfold ids. rewrite map_app, in_app_iff. simpl.
      intros [H|[H|[]]]; [exact (H2 H) | exact (Hdiff H)].
Qed.

Lemma addToCart_twice_in_one_handler_witness :
  cart (exec (addToCart wallet 1 ;; addToCart smartwatch 1) initialStore)
    = [] ++ [CartItem.ofProduct smartwatch 1]
  /\ cart (run [OpAddToCart wallet 1; OpAddToCart smartwatch 1] initialStore)
     = [] ++ [CartItem.ofProduct wallet 1; CartItem.ofProduct smartwatch 1].
Proof.
  destruct (addToCart_twice_in_one_handler initialStore wallet smartwatch 1 1)
    as (_ & Hone & Htwo).
  - discriminate.
  - simpl. tauto.
  - simpl. tauto.
  - split; [exact Hone | exact Htwo].
Defined.

(** ** The orders table *)

Section SortOrders.

Lemma insertOrder_perm (x : Order.t) (l : list Order.t) :
  Permutation (x :: l) (insertOrder x l).
Proof.
  induction l as [|y l IH]; simpl; [apply Permutation_refl|].
  destruct (0 <? compareOrders x y); [|apply Permutation_refl].
  apply perm_trans with (y :: x :: l); [apply perm_swap|].
  apply perm_skip. exact IH.
Qed.

Lemma sortOrders_perm (l : list Order.t) : Permutation l (sortOrders l).
Proof.
  induction l as [|x l IH]; simpl; [apply perm_nil|].
  apply perm_trans with (x :: sortOrders l); [apply perm_skip; exact IH|].
  apply insertOrder_perm.
Qed.

Lemma insertOrder_newestFirst (x : Order.t) (l : list Order.t) :
  newestFirst l -> newestFirst (insertOrder x l).
Proof.
  unfold newestFirst.
  induction l as [|y l IH]; simpl; intro Hs.
  - constructor; constructor.
  - inversion Hs as [|? ? Hl Hy]; subst.
    destruct (Z.ltb_spec 0 (compareOrders x y)) as [Hlt|Hge].
    + constructor; [apply IH; exact Hl|].
      apply (Permutation_Forall (insertOrder_perm x l)).
      constructor; [|exact Hy].
      unfold notOlder, compareOrders in *. lia.
    + constructor; [exact Hs|].
      constructor; [unfold notOlder, compareOrders in *; lia|].
      apply (Forall_impl _ (P := notOlder y)); [|exact Hy].
      intros o Ho. unfold notOlder, compareOrders in *. lia.
Qed.

Lemma sortOrders_newestFirst (l : list Order.t) : newestFirst (sortOrders l).
Proof.
  induction l as [|x l IH]; simpl; [constructor|].
  apply insertOrder_newestFirst. exact IH.
Qed.

Lemma insertOrder_placedAt (t : Z) (x : Order.t) (l : list Order.t) :
  filter (placedAt t) (insertOrder x l) = filter (placedAt t) (x :: l).
Proof.
  induction l as [|y l IH]; [reflexivity|].
  cbn [insertOrder].
  destruct (Z.ltb_spec 0 (compareOrders x y)) as [Hlt|Hge]; [|reflexivity].
  cbn [filter] in *. rewrite IH. unfold placedAt, compareOrders in *.
  destruct (Z.eqb_spec (Order.timestamp x) t) as [Ex|Ex];
    destruct (Z.eqb_spec (Order.timestamp y) t) as [Ey|Ey];
    try reflexivity.
  lia.
Qed.

Lemma sortOrders_placedAt (t : Z) (l : list Order.t) :
  filter (placedAt t) (sortOrders l) = filter (placedAt t) l.
Proof.
  induction l as [|x l IH]; [reflexivity|].
  cbn [sortOrders fold_right]. fold (sortOrders l).
  rewrite insertOrder_placedAt. cbn [filter]. rewrite IH. reflexivity.
Qed.

Lemma sortOrders_sorted (l : list Order.t) : newestFirst l -> sortOrders l = l.
Proof.
  unfold newestFirst.
  induction l as [|x l IH]; [reflexivity|]. intro Hs.
  inversion Hs as [|? ? Hl Hx]; subst.
  cbn [sortOrders fold_right]. fold (sortOrders l). rewrite (IH Hl).
  destruct l as [|y l]; [reflexivity|]. cbn [insertOrder].
  inversion Hx as [|? ? Hy _]; subst.
  destruct (Z.ltb_spec 0 (compareOrders x y)) as [Hlt|Hge]; [|reflexivity].
  unfold notOlder, compareOrders in *. lia.
Qed.

Lemma insertOrder_oldest (x : Order.t) (l : list Order.t) :
  Forall (older x) l -> insertOrder x l = l ++ [x].
Proof.
  induction l as [|y l IH]; [reflexivity|]. intro H.
  inversion H as [|? ? Hy Hl]; subst. cbn [insertOrder].
  destruct (Z.ltb_spec 0 (compareOrders x y)) as [Hlt|Hge].
  - rewrite (IH Hl). reflexivity.
  - unfold older, compareOrders in *. lia.
Qed.

Lemma sortOrders_oldestFirst (l : list Order.t) :
  StronglySorted older l -> sortOrders l = rev l.
Proof.
  induction l as [|x l IH]; [reflexivity|]. intro Hs.
  inversion Hs as [|? ? Hl Hx]; subst.
  cbn [sortOrders fold_right]. fold (sortOrders l). rewrite (IH Hl).
  cbn [rev]. apply insertOrder_oldest.
  apply Forall_rev. exact Hx.
Qed.

End SortOrders.

(** X13: rendering the orders table of the admin page reorders the orders the
    store holds, and does nothing else: the orders after it are a
    permutation of the orders before it, each with all its fields, so their
    number is the same and an order is in the store after it exactly when it
    was before; products, cart and admin flag are kept. *)
Theorem renderOrdersTable_permutes (s : Store) :
  let s' := renderOrdersTable s in
  Permutation (orders s) (orders s')
  /\ List.length (orders s') = List.length (orders s)
  /\ (forall o, In o (orders s') <-> In o (orders s))
  /\ products s' = products s /\ cart s' = cart s /\ isAdmin s' = isAdmin s.
Proof.
  intro s'. subst s'.
  assert (Hp : Permutation (orders s) (orders (renderOrdersTable s)))
    by apply sortOrders_perm.
  split; [exact Hp|].
  split; [symmetry; apply Permutation_length; exact Hp|].
  split; [|repeat split].
  intro o. split.
  - apply Permutation_in. apply Permutation_sym. exact Hp.
  - apply Permutation_in. exact Hp.
Qed.

(** X14: after the orders table is rendered the orders of the store are
    newest first: no order is older than an order behind it; and orders of
    one timestamp keep the order they had. *)
Theorem renderOrdersTable_newest_first (s : Store) :
  let s' := renderOrdersTable s in
  newestFirst (orders s')
  /\ (forall i j a b, (i < j)%nat ->
        nth_error (orders s') i = Some a -> nth_error (orders s') j = Some b ->
        Order.timestamp b <= Order.timestamp a)
  /\ (forall t, filter (placedAt t) (orders s') = filter (placedAt t) (orders s)).
Proof.
  intro s'. subst s'.
  assert (Hs : newestFirst (orders (renderOrdersTable s)))
    by apply sortOrders_newestFirst.
  split; [exact Hs|]. split; [|intro t; apply sortOrders_placedAt].
  unfold newestFirst in Hs.
  induction Hs as [|x l Hl IH Hx]; intros i j a b Hij Ha Hb.
  - destruct i; discriminate.
  - destruct j as [|j]; [lia|]. simpl in Hb. destruct i as [|i].
    + simpl in Ha. injection Ha as Ha. subst a.
      rewrite Forall_forall in Hx. apply (Hx b).
      apply (nth_error_In _ _ Hb).
    + simpl in Ha. apply (IH i j a b); [lia | exact Ha | exact Hb].
Qed.

Lemma renderOrdersTable_newest_first_witness :
  let o1 := newOrder 1700000000000 1700000000000 sampleCustomer
              [CartItem.ofProduct wallet 2] in
  let o2 := newOrder 1700000005000 1700000005000 sampleCustomer
              [CartItem.ofProduct smartwatch 1] in
  let s := mkStore true initialProducts [] [o1; o2] in
  orders (renderOrdersTable s) = [o2; o1]
  /\ Order.timestamp o1 <= Order.timestamp o2.
Proof.
  intros o1 o2 s. split; [reflexivity|].
  destruct (renderOrdersTable_newest_first s) as (_ & Hidx & _).
  apply (Hidx 0%nat 1%nat o2 o1).
  - lia.
  - reflexivity.
  - reflexivity.
Defined.

(** X15: rendering the orders table a second time changes nothing, and it
    changes nothing when the orders are newest first already; orders stored
    oldest first with distinct timestamps, as [placeOrder] appends them over
    time, come out reversed. *)
Theorem renderOrdersTable_idempotent (s : Store) :
  renderOrdersTable (renderOrdersTable s) = renderOrdersTable s
  /\ (newestFirst (orders s) -> renderOrdersTable s = s)
  /\ (StronglySorted older (orders s) ->
        orders (renderOrdersTable s) = rev (orders s)).
Proof.
  split; [|split].
  - unfold renderOrdersTable. simpl.
    rewrite (sortOrders_sorted _ (sortOrders_newestFirst (orders s))).
    reflexivity.
  - intro Hs. unfold renderOrdersTable. rewrite (sortOrders_sorted _ Hs).
    apply store_eta.
  - intro Hs. apply sortOrders_oldestFirst. exact Hs.
Qed.

Lemma renderOrdersTable_idempotent_witness :
  let o1 := newOrder 1700000000000 1700000000000 sampleCustomer
              [CartItem.ofProduct wallet 2] in
  let o2 := newOrder 1700000005000 1700000005000 sampleCustomer
              [CartItem.ofProduct smartwatch 1] in
  let o3 := newOrder 1700000009000 1700000009000 sampleCustomer
              [CartItem.ofProduct wallet 1] in
  orders (renderOrdersTable (mkStore true initialProducts [] [o1; o2; o3]))
    = rev [o1; o2; o3]
  /\ renderOrdersTable (mkStore true initialProducts [] [o3; o2; o1])
     = mkStore true initialProducts [] [o3; o2; o1].
Proof.
  intros o1 o2 o3. split.
  - apply (proj2 (proj2 (renderOrdersTable_idempotent
                           (mkStore true initialProducts [] [o1; o2; o3])))).
    repeat constructor; unfold older; simpl; lia.
  - apply (proj1 (proj2 (renderOrdersTable_idempotent
                           (mkStore true initialProducts [] [o3; o2; o1])))).
    repeat constructor; unfold notOlder; simpl; lia.
Defined.

(** ** The checkout form *)

Lemma dropWhiteSpace_nil (cs : list Ascii.ascii) :
  dropWhiteSpace cs = [] <-> forallb isWhiteSpace cs = true.
Proof.
  induction cs as [|c cs IH]; simpl; [tauto|].
  destruct (isWhiteSpace c); simpl; [exact IH|].
  split; discriminate.
Qed.

Lemma dropWhiteSpace_head (cs : list Ascii.ascii) (c : Ascii.ascii)
    (rest : list Ascii.ascii) :
  dropWhiteSpace cs = c :: rest -> isWhiteSpace c = false.
Proof.
  induction cs as [|d cs IH]; simpl; [discriminate|].
  destruct (isWhiteSpace d) eqn:E; [exact IH|].
  intro H. injection H as H _. subst d. exact E.
Qed.

Lemma isEmptyString_of_list (cs : list Ascii.ascii) :
  isEmptyString (string_of_list_ascii cs) = true <-> cs = [].
Proof. destruct cs; simpl; split; congruence. Qed.

Lemma trim_blank (s : string) : isEmptyString (trim s) = blank s.
Proof.
  unfold trim, blank, chars.
  destruct (dropWhiteSpace (list_ascii_of_string s)) as [|c rest] eqn:E.
  - simpl. symmetry. apply dropWhiteSpace_nil. exact E.
  - assert (Hc : isWhiteSpace c = false) by (apply (dropWhiteSpace_head _ _ _ E)).
    assert (Hb : forallb isWhiteSpace (list_ascii_of_string s) = false).
    { destruct (forallb isWhiteSpace (list_ascii_of_string s)) eqn:F; [|reflexivity].
      apply dropWhiteSpace_nil in F. congruence. }
    rewrite Hb.
    destruct (isEmptyString _) eqn:G; [|reflexivity].
    apply isEmptyString_of_list in G.
    apply (f_equal (@rev Ascii.ascii)) in G. rewrite rev_involutive in G.
    simpl in G. apply dropWhiteSpace_nil in G.
    rewrite forallb_forall in G.
    rewrite (G c) in Hc; [discriminate|].
    apply in_or_app. right. left. reflexivity.
Qed.

Lemma digit_not_whiteSpace (c : Ascii.ascii) :
  isDigit c = true -> isWhiteSpace c = false.
Proof.
  unfold isDigit, isWhiteSpace. cbv zeta. intro H.
  apply andb_prop in H. destruct H as [H1 H2].
  apply N.leb_le in H1, H2.
  repeat (apply orb_false_intro); apply N.eqb_neq; lia.
Qed.

Lemma toString_nonempty (n : Z) : isEmptyString (toString n) = false.
Proof.
  unfold toString.
  assert (Hu : forall d, isEmptyString (NilZero.string_of_uint d) = false).
  { intro d. destruct d; reflexivity. }
  destruct n; simpl; [reflexivity | apply Hu | reflexivity].
Qed.

(** The outcome of [handleSubmit], case by case. *)
Lemma handleSubmit_cases (s : Store) (nowId nowTs : Z) (ci : CustomerInfo.t) :
  call (handleSubmit nowId nowTs ci) s
  = if (blank (CustomerInfo.name ci) || blank (CustomerInfo.phone ci)
        || blank (CustomerInfo.address ci))%bool
    then (FieldsRequired, s)
    else if negb (isPhoneNumber (removeWhiteSpace (CustomerInfo.phone ci)))
    then (InvalidPhone, s)
    else match cart s with
         | [] => (OrderFailed, s)
         | _ :: _ =>
             (NavigateToOrderSuccess (toString nowId),
              exec (placeOrder nowId nowTs ci (cart s)) s)
         end.
Proof.
  unfold call, handleSubmit. rewrite !trim_blank.
  destruct (blank (CustomerInfo.name ci) || blank (CustomerInfo.phone ci)
            || blank (CustomerInfo.address ci))%bool; [reflexivity|].
  destruct (negb (isPhoneNumber (removeWhiteSpace (CustomerInfo.phone ci))));
    [reflexivity|].
  destruct (cart s) as [|item rest] eqn:E.
  - reflexivity.
  - unfold bind, exec, call, placeOrder.
    cbn [List.length Nat.eqb]. cbn [bind ret setOrders clearCart setCart].
    cbn [newOrder Order.id]. rewrite toString_nonempty. rewrite E. reflexivity.
Qed.

(** X16: when the checkout form ends on the page of the order, none of the
    three fields was blank, the phone without its white space was ten to
    fifteen digits, and the cart was not empty; the order holds the customer
    data as typed, untrimmed, and the cart of the render, the cart is
    emptied, and the page shown is that of the id of the new order. *)
Theorem handleSubmit_success
    (s : Store) (nowId nowTs : Z) (ci : CustomerInfo.t) (orderId : string)
    (Hok : result (handleSubmit nowId nowTs ci) s = NavigateToOrderSuccess orderId) :
  let s' := exec (handleSubmit nowId nowTs ci) s in
  blank (CustomerInfo.name ci) = false
  /\ blank (CustomerInfo.phone ci) = false
  /\ blank (CustomerInfo.address ci) = false
  /\ isPhoneNumber (removeWhiteSpace (CustomerInfo.phone ci)) = true
  /\ cart s <> []
  /\ orderId = toString nowId
  /\ orders s' = orders s ++ [newOrder nowId nowTs ci (cart s)]
  /\ cart s' = [].
Proof.
  intro s'. subst s'. unfold result, exec in *.
  rewrite handleSubmit_cases in *.
  destruct (blank (CustomerInfo.name ci)); [discriminate Hok|].
  destruct (blank (CustomerInfo.phone ci)); [discriminate Hok|].
  destruct (blank (CustomerInfo.address ci)); [discriminate Hok|].
  destruct (isPhoneNumber (removeWhiteSpace (CustomerInfo.phone ci)));
    [|discriminate Hok].
  simpl in *. destruct (cart s) as [|item rest] eqn:E; [discriminate Hok|].
  simpl in Hok. injection Hok as Hok.
  repeat split; try congruence.
Qed.

Lemma handleSubmit_success_witness :
  let s := run [OpAddToCart wallet 2] initialStore in
  let ci := CustomerInfo.mk " Ayesha Khan " "0300 123 4567" "12 Mall Road" in
  orders (exec (handleSubmit 1700000000000 1700000000001 ci) s)
  = orders s ++ [newOrder 1700000000000 1700000000001 ci (cart s)].
Proof.
  intros s ci.
  destruct (handleSubmit_success s 1700000000000 1700000000001 ci
              "1700000000000"%string)
    as (_ & _ & _ & _ & _ & _ & Ho & _).
  - reflexivity.
  - exact Ho.
Defined.

(** X17: the checkout form places no order and leaves the store as it is
    whenever it ends on an error message: a blank name, phone or address
    gives the message that all fields are required, before the phone is
    looked at; otherwise a phone that is not ten to fifteen digits gives the
    phone message; otherwise an empty cart gives the failure message.  With
    none of these it ends on the page of the order. *)
Theorem handleSubmit_outcomes (s : Store) (nowId nowTs : Z) (ci : CustomerInfo.t) :
  let outcome := result (handleSubmit nowId nowTs ci) s in
  let s' := exec (handleSubmit nowId nowTs ci) s in
  let someBlank := (blank (CustomerInfo.name ci) || blank (CustomerInfo.phone ci)
                    || blank (CustomerInfo.address ci))%bool in
  let phoneOk := isPhoneNumber (removeWhiteSpace (CustomerInfo.phone ci)) in
  (someBlank = true -> outcome = FieldsRequired /\ s' = s)
  /\ (someBlank = false -> phoneOk = false -> outcome = InvalidPhone /\ s' = s)
  /\ (someBlank = false -> phoneOk = true -> cart s = [] ->
        outcome = OrderFailed /\ s' = s)
  /\ (someBlank = false -> phoneOk = true -> cart s <> [] ->
        outcome = NavigateToOrderSuccess (toString nowId))
  /\ ((forall orderId, outcome <> NavigateToOrderSuccess orderId) -> s' = s).
Proof.
  intros outcome s' someBlank phoneOk.
  subst outcome s' someBlank phoneOk. unfold result, exec.
  rewrite handleSubmit_cases.
  destruct (blank (CustomerInfo.name ci) || blank (CustomerInfo.phone ci)
            || blank (CustomerInfo.address ci))%bool;
    destruct (isPhoneNumber (removeWhiteSpace (CustomerInfo.phone ci)));
    destruct (cart s) as [|item rest]; simpl;
    repeat split; intros; try discriminate; try congruence; try reflexivity.
  exfalso. apply (H (toString nowId)). reflexivity.
Qed.

Lemma handleSubmit_outcomes_witness :
  let s := run [OpAddToCart wallet 2] initialStore in
  (result (handleSubmit 1 2 (CustomerInfo.mk "Ayesha" "   " "12 Mall Road")) s
     = FieldsRequired)
  /\ (result (handleSubmit 1 2 (CustomerInfo.mk "Ayesha" "+923001234567" "12 Mall Road")) s
        = InvalidPhone
      /\ exec (handleSubmit 1 2 (CustomerInfo.mk "Ayesha" "+923001234567" "12 Mall Road")) s
         = s)
  /\ (result (handleSubmit 1 2 (CustomerInfo.mk "Ayesha" "03001234567" "12 Mall Road"))
             initialStore
      = OrderFailed).
Proof.
  intro s.
  pose proof (handleSubmit_outcomes s 1 2
                (CustomerInfo.mk "Ayesha" "   " "12 Mall Road")) as Hb.
  pose proof (handleSubmit_outcomes s 1 2
                (CustomerInfo.mk "Ayesha" "+923001234567" "12 Mall Road")) as Hp.
  pose proof (handleSubmit_outcomes initialStore 1 2
                (CustomerInfo.mk "Ayesha" "03001234567" "12 Mall Road")) as He.
  cbv zeta in Hb, Hp, He.
  destruct Hb as (Hb & _). destruct Hp as (_ & Hp & _).
  destruct He as (_ & _ & He & _).
  split; [apply Hb; reflexivity|].
  split; [apply Hp; reflexivity|].
  apply He; reflexivity.
Defined.

Lemma filter_digits_or_whiteSpace (cs : list Ascii.ascii) :
  forallb (fun c => isDigit c || isWhiteSpace c)%bool cs = true ->
  filter (fun c => negb (isWhiteSpace c)) cs = filter isDigit cs.
Proof.
  induction cs as [|c cs IH]; simpl; [reflexivity|].
  intro H. apply andb_prop in H. destruct H as [Hc Hcs].
  rewrite (IH Hcs).
  destruct (isDigit c) eqn:D.
  - rewrite (digit_not_whiteSpace c D). reflexivity.
  - simpl in Hc. rewrite Hc. reflexivity.
Qed.

Lemma forallb_filter_digits (cs : list Ascii.ascii) :
  forallb isDigit (filter (fun c => negb (isWhiteSpace c)) cs)
  = forallb (fun c => isDigit c || isWhiteSpace c)%bool cs.
Proof.
  induction cs as [|c cs IH]; simpl; [reflexivity|].
  destruct (isWhiteSpace c) eqn:W; simpl.
  - rewrite IH, orb_true_r. reflexivity.
  - rewrite IH, orb_false_r. reflexivity.
Qed.

(** X18: the checkout form accepts a phone exactly when each of its
    characters is a digit or white space and its digits number ten to
    fifteen: white space anywhere is ignored, and a plus sign, a dash or a
    letter is refused. *)
Theorem phone_accepted_iff (phone : string) :
  isPhoneNumber (removeWhiteSpace phone) = true
  <-> forallb (fun c => isDigit c || isWhiteSpace c)%bool (chars phone) = true
      /\ (10 <= List.length (filter isDigit (chars phone)) <= 15)%nat.
Proof.
  unfold isPhoneNumber, removeWhiteSpace, chars.
  rewrite list_ascii_of_string_of_list_ascii. cbv zeta.
  rewrite forallb_filter_digits. rewrite !andb_true_iff.
  rewrite Nat.leb_le, Nat.leb_le. split.
  - intros [[H1 H2] H3]. split; [exact H3|].
    rewrite <- (filter_digits_or_whiteSpace _ H3). lia.
  - intros [H3 H12].
    rewrite (filter_digits_or_whiteSpace _ H3). repeat split; [lia | lia | exact H3].
Qed.

Lemma phone_accepted_iff_witness :
  isPhoneNumber (removeWhiteSpace " 0300 123 4567 ") = true.
Proof.
  apply (proj2 (phone_accepted_iff " 0300 123 4567 ")).
  split; [reflexivity | simpl; lia].
Defined.

(** ** The quantity field of the product page *)

(** X19: whatever the quantity field of the product page parses to, the
    quantity the page keeps is at least one: a number of one or more is kept,
    zero, a negative number and [NaN] give one.  So an [addToCart] issued by
    the page keeps every cart quantity at least one. *)
Theorem quantityFromInput_clamps (parsed : option Z) :
  1 <= quantityFromInput parsed
  /\ (forall n, parsed = Some n -> 1 <= n -> quantityFromInput parsed = n)
  /\ (forall n, parsed = Some n -> n <= 0 -> quantityFromInput parsed = 1)
  /\ (parsed = None -> quantityFromInput parsed = 1)
  /\ (forall s p, quantities_positive (cart s) ->
        quantities_positive
          (cart (exec (addToCart p (quantityFromInput parsed)) s))).
Proof.
  assert (H1 : 1 <= quantityFromInput parsed) by (unfold quantityFromInput; lia).
  split; [exact H1|].
  split; [intros n -> Hn; unfold quantityFromInput;
          destruct (Z.eqb_spec n 0); lia|].
  split; [intros n -> Hn; unfold quantityFromInput;
          destruct (Z.eqb_spec n 0); lia|].
  split; [intros ->; reflexivity|].
  intros s p Hc. apply addToCart_positive; assumption.
Qed.

Lemma quantityFromInput_clamps_witness :
  quantityFromInput (Some 3) = 3
  /\ quantityFromInput (Some (-4)) = 1
  /\ quantities_positive
       (cart (exec (addToCart wallet (quantityFromInput (Some 0))) initialStore)).
Proof.
  destruct (quantityFromInput_clamps (Some 3)) as (_ & Hkeep & _).
  destruct (quantityFromInput_clamps (Some (-4))) as (_ & _ & Hone & _).
  destruct (quantityFromInput_clamps (Some 0)) as (_ & _ & _ & _ & Hadd).
  split; [apply (Hkeep 3); [reflexivity | lia]|].
  split; [apply (Hone (-4)); [reflexivity | lia]|].
  apply Hadd. constructor.
Defined.

(** ** The product search of the home page *)

Lemma prefix_empty (s : string) : prefix EmptyString s = true.
Proof. destruct s; reflexivity. Qed.

Lemma prefix_append (t b : string) : prefix t (t ++ b) = true.
Proof.
  induction t as [|c t IH]; simpl; [apply prefix_empty|].
  destruct (Ascii.ascii_dec c c) as [_|N]; [exact IH | congruence].
Qed.

Lemma includes_empty (s : string) : includes s EmptyString = true.
Proof. destruct s; reflexivity. Qed.

Lemma includes_prefix (s t : string) : prefix t s = true -> includes s t = true.
Proof. intro H. destruct s; cbn [includes]; rewrite H; reflexivity. Qed.

Lemma includes_append (a t b : string) : includes (a ++ t ++ b) t = true.
Proof.
  induction a as [|c a IH].
  - cbn [append]. apply includes_prefix. apply prefix_append.
  - cbn [append includes]. rewrite IH. apply orb_true_r.
Qed.

Lemma toLowerCase_append (a b : string) :
  toLowerCase (a ++ b) = (toLowerCase a ++ toLowerCase b)%string.
Proof.
  induction a as [|c a IH]; simpl; [reflexivity | rewrite IH; reflexivity].
Qed.

Lemma toLowerCaseChar_idempotent (c : Ascii.ascii) :
  toLowerCaseChar (toLowerCaseChar c) = toLowerCaseChar c.
Proof.
  destruct c as [[] [] [] [] [] [] [] []]; reflexivity.
Qed.

Lemma toLowerCase_idempotent (s : string) :
  toLowerCase (toLowerCase s) = toLowerCase s.
Proof.
  induction s as [|c s IH]; simpl; [reflexivity|].
  rewrite toLowerCaseChar_idempotent, IH. reflexivity.
Qed.

(** X20: the home page lists every product when the search field is empty;
    the letter case of the search term does not matter; and a product whose
    name contains the term, up to letter case, is listed, in the place it
    has among the products. *)
Theorem filteredProducts_search (s : Store) (searchTerm : string) :
  filteredProducts EmptyString s = products s
  /\ filteredProducts (toLowerCase searchTerm) s = filteredProducts searchTerm s
  /\ (forall p a b,
        In p (products s) ->
        toLowerCase (Product.name p)
          = (a ++ toLowerCase searchTerm ++ b)%string ->
        In p (filteredProducts searchTerm s))
  /\ (forall p, In p (filteredProducts searchTerm s) -> In p (products s)).
Proof.
  unfold filteredProducts. split; [|split; [|split]].
  - cbn [toLowerCase].
    induction (products s) as [|p l IH]; cbn [filter]; [reflexivity|].
    rewrite includes_empty, IH. reflexivity.
  - rewrite toLowerCase_idempotent. reflexivity.
  - intros p a b Hin Hname. apply filter_In. split; [exact Hin|].
    rewrite Hname. apply includes_append.
  - intros p Hin. apply filter_In in Hin. tauto.
Qed.

Lemma filteredProducts_search_witness :
  In wallet (filteredProducts "LEATHER" initialStore).
Proof.
  destruct (filteredProducts_search initialStore "LEATHER") as (_ & _ & Hfound & _).
  apply (Hfound wallet "classic "%string " wallet"%string).
  - left. reflexivity.
  - reflexivity.
Defined.

(** ** The earlier copy of placeOrder *)

(** X21: the earlier copy of [placeOrder] in the file does what the current
    one does, with one difference: the total it stores is the subtotal of the
    items without the shipping cost.  Both return the same result and leave
    the same cart, products and admin flag, and their new orders agree on
    every other field. *)
Theorem Legacy_placeOrder_lacks_shipping
    (s : Store) (nowId nowTs : Z) (customerInfo : CustomerInfo.t)
    (cartItems : list CartItem.t) :
  let old := call (Legacy.placeOrder nowId nowTs customerInfo cartItems) s in
  let new := call (placeOrder nowId nowTs customerInfo cartItems) s in
  fst old = fst new
  /\ cart (snd old) = cart (snd new)
  /\ products (snd old) = products (snd new)
  /\ isAdmin (snd old) = isAdmin (snd new)
  /\ (cartItems = [] -> snd old = s /\ snd new = s)
  /\ (cartItems <> [] ->
        exists o o',
          orders (snd old) = orders s ++ [o]
          /\ orders (snd new) = orders s ++ [o']
          /\ Order.totalAmount o = sigma lineAmount cartItems
          /\ Order.totalAmount o' = Order.totalAmount o + SHIPPING_COST
          /\ Order.id o' = Order.id o
          /\ Order.customerInfo o' = Order.customerInfo o
          /\ Order.items o' = Order.items o
          /\ Order.paymentMethod o' = Order.paymentMethod o
          /\ Order.timestamp o' = Order.timestamp o
          /\ Order.status o' = Order.status o).
Proof.
  intros old new. subst old new.
  destruct cartItems as [|item rest].
  - repeat split; congruence.
  - split; [reflexivity|]. do 3 (split; [reflexivity|]).
    split; [discriminate|]. intros _.
    exists (Legacy.newOrder nowId nowTs customerInfo (item :: rest)),
           (newOrder nowId nowTs customerInfo (item :: rest)).
    split; [reflexivity|]. split; [reflexivity|].
    split; [apply subtotalOf_sigma|]. repeat split.
Qed.

Lemma Legacy_placeOrder_lacks_shipping_witness :
  map Order.totalAmount
    (orders (snd (call (Legacy.placeOrder 1 1 sampleCustomer
                          [CartItem.ofProduct wallet 2]) initialStore)))
    = [5000]
  /\ map Order.totalAmount
       (orders (snd (call (placeOrder 1 1 sampleCustomer
                             [CartItem.ofProduct wallet 2]) initialStore)))
     = [5250].
Proof.
  destruct (Legacy_placeOrder_lacks_shipping initialStore 1 1 sampleCustomer
              [CartItem.ofProduct wallet 2])
    as (_ & _ & _ & _ & _ & Hne).
  destruct Hne as (o & o' & Ho & Ho' & Ht & Ht' & _); [discriminate|].
  rewrite Ho, Ho'. simpl. rewrite Ht', Ht. split; reflexivity.
Defined.

(** ** Total sales *)

Lemma totalSalesAmount_sigma (s : Store) :
  totalSalesAmount s = sigma Order.totalAmount (orders s).
Proof.
  unfold totalSalesAmount.
  rewrite (fold_left_plus_sigma Order.totalAmount); reflexivity.
Qed.

(** X22: the total sales move only when an order is placed: a [placeOrder]
    on a non-empty list of items raises them by the subtotal of the items
    plus the shipping cost, and every other call, a change of status
    included, leaves them as they are. *)
Theorem totalSalesAmount_step (op : Op) (s : Store) :
  totalSalesAmount (step op s)
  = match op with
    | OpPlaceOrder _ _ _ (item :: rest) =>
        totalSalesAmount s + (sigma lineAmount (item :: rest) + SHIPPING_COST)
    | _ => totalSalesAmount s
    end.
Proof.
  rewrite !totalSalesAmount_sigma.
  destruct op; cbn [step]; try reflexivity.
  - unfold login.
    destruct ((email =? ADMIN_EMAIL)%string && (pass =? ADMIN_PASSWORD)%string)%bool;
      reflexivity.
  - unfold updateCartQuantity. destruct (quantity <=? 0); reflexivity.
  - destruct cartItems as [|item rest]; [reflexivity|].
    change (orders (exec (placeOrder nowId nowTs customerInfo (item :: rest)) s))
      with (orders s ++ [newOrder nowId nowTs customerInfo (item :: rest)]).
    rewrite sigma_app. cbn [sigma newOrder Order.totalAmount].
    rewrite subtotalOf_sigma. cbn [sigma]. lia.
  - rewrite updateOrderStatus_orders.
    induction (orders s) as [|o l IH]; [reflexivity|].
    cbn [map sigma]. rewrite IH.
    destruct (Order.id o =? orderId)%string; reflexivity.
Qed.

(** * The cart with the quantities the pages pass *)

Section JsNumbers.
Import JsNumber.



End JsNumbers.

Definition jsIds (c : list JsCartItem.t) : list string := map JsCartItem.id c.




Section JsLines.
Variable k : string.


Lemma jsFilter_ids (c : list JsCartItem.t) :
  ~ In k (jsIds (JsCart.removeFromCart k c)).
Proof.
  unfold jsIds, JsCart.removeFromCart. rewrite in_map_iff.
  intros [x [Hx Hin]]. apply filter_In in Hin. destruct Hin as [_ Hin].
  rewrite (proj2 (String.eqb_eq _ _) Hx) in Hin. discriminate Hin.
Qed.

End JsLines.

Section JsRewrittenLines.
Variable k : string.
Variable g : JsCartItem.t -> JsCartItem.t.
Hypothesis g_id : forall item, JsCartItem.id (g item) = JsCartItem.id item.

Let rewritten (c : list JsCartItem.t) : list JsCartItem.t :=
  map (fun item => if (JsCartItem.id item =? k)%string then g item else item) c.


Lemma jsRewritten_ids (c : list JsCartItem.t) : jsIds (rewritten c) = jsIds c.
Proof.
  unfold rewritten, jsIds. induction c as [|x c IH]; simpl; [reflexivity|].
  rewrite IH. f_equal.
  destruct (JsCartItem.id x =? k)%string; [apply g_id | reflexivity].
Qed.

End JsRewrittenLines.







(** On integer quantities the cart updaters of the two embeddings agree. *)
Lemma jsOfProduct (p : Product.t) (q : Z) :
  JsCartItem.ofCartItem (CartItem.ofProduct p q) = JsCartItem.mk p (JsNumber.Int q).
Proof. destruct p; reflexivity. Qed.

Lemma jsFind_map (k : string) (c : list CartItem.t) :
  find (fun item => (JsCartItem.id item =? k)%string) (map JsCartItem.ofCartItem c)
  = option_map JsCartItem.ofCartItem
      (find (fun item => (CartItem.id item =? k)%string) c).
Proof.
  induction c as [|x c IH]; simpl; [reflexivity|].
  change (JsCartItem.id (JsCartItem.ofCartItem x)) with (CartItem.id x).
  destruct (CartItem.id x =? k)%string; [reflexivity | exact IH].
Qed.

Lemma jsCart_agrees_addToCart (s : Store) (p : Product.t) (q : Z) :
  map JsCartItem.ofCartItem (cart (exec (addToCart p q) s))
  = JsCart.addToCart p (JsNumber.Int q) (map JsCartItem.ofCartItem (cart s)).
Proof.
  rewrite addToCart_cart. unfold JsCart.addToCart. rewrite jsFind_map.
  destruct (find _ (cart s)); simpl.
  - unfold rewriteLines. rewrite !map_map. apply map_ext. intro item.
    change (JsCartItem.id (JsCartItem.ofCartItem item)) with (CartItem.id item).
    destruct (CartItem.id item =? Product.id p)%string; reflexivity.
  - rewrite map_app. simpl. rewrite jsOfProduct. reflexivity.
Qed.

Lemma jsCart_agrees_removeFromCart (s : Store) (k : string) :
  map JsCartItem.ofCartItem (cart (exec (removeFromCart k) s))
  = JsCart.removeFromCart k (map JsCartItem.ofCartItem (cart s)).
Proof.
  rewrite removeFromCart_cart. unfold dropLines, JsCart.removeFromCart.
  induction (cart s) as [|x c IH]; simpl; [reflexivity|].
  change (JsCartItem.id (JsCartItem.ofCartItem x)) with (CartItem.id x).
  destruct (CartItem.id x =? k)%string; simpl; [exact IH | rewrite IH; reflexivity].
Qed.

Lemma jsCart_agrees_updateCartQuantity (s : Store) (k : string) (q : Z) :
  map JsCartItem.ofCartItem (cart (exec (updateCartQuantity k q) s))
  = JsCart.updateCartQuantity k (JsNumber.Int q) (map JsCartItem.ofCartItem (cart s)).
Proof.
  unfold JsCart.updateCartQuantity. cbn [JsNumber.leb].
  destruct (q <=? 0) eqn:E.
  - rewrite <- jsCart_agrees_removeFromCart. unfold updateCartQuantity.
    rewrite E. reflexivity.
  - rewrite updateCartQuantity_cart, E. unfold rewriteLines.
    rewrite !map_map. apply map_ext. intro item.
    change (JsCartItem.id (JsCartItem.ofCartItem item)) with (CartItem.id item).
    destruct (CartItem.id item =? k)%string; reflexivity.
Qed.

Lemma jsCart_agrees (op : Op) (s : Store) :
  map JsCartItem.ofCartItem (cart (step op s))
  = JsCart.run (JsCart.ofOp op) (map JsCartItem.ofCartItem (cart s)).
Proof.
  destruct op; cbn [step JsCart.ofOp JsCart.run fold_left JsCart.step].
  - rewrite login_cart. reflexivity.
  - reflexivity.
  - reflexivity.
  - reflexivity.
  - reflexivity.
  - apply jsCart_agrees_addToCart.
  - apply jsCart_agrees_removeFromCart.
  - apply jsCart_agrees_updateCartQuantity.
  - reflexivity.
  - rewrite placeOrder_cart. destruct cartItems; reflexivity.
  - reflexivity.
Qed.

(** With quantities that are numbers, at least one in [addToCart], every
    call keeps the quantities of the cart at least one. *)
Lemma jsStep_positive (call : JsCart.Call) (c : list JsCartItem.t) :
  JsCart.numeric call -> JsCart.quantities_positive c ->
  JsCart.quantities_positive (JsCart.step call c).
Proof.
  unfold JsCart.quantities_positive.
  intros Hcall Hc. destruct call as [p q | k | k q |]; simpl in *.
  - destruct q as [q|]; [|contradiction]. unfold JsCart.addToCart.
    destruct (find _ c).
    + rewrite Forall_map. revert Hc. apply Forall_impl. intros item Hi.
      destruct (JsCartItem.id item =? Product.id p)%string; [|exact Hi].
      simpl. destruct (JsCartItem.quantity item) as [z|]; simpl in *;
        [|discriminate Hi].
      apply Z.leb_le. apply Z.leb_le in Hi. lia.
    + apply Forall_app. split; [exact Hc|].
      constructor; [|constructor]. simpl. apply Z.leb_le. exact Hcall.
  - unfold JsCart.removeFromCart. rewrite Forall_forall in *.
    intros x Hx. apply filter_In in Hx. apply Hc. tauto.
  - destruct q as [q|]; [|contradiction]. unfold JsCart.updateCartQuantity.
    cbn [JsNumber.leb]. destruct (Z.leb_spec q 0) as [Hq|Hq].
    + unfold JsCart.removeFromCart. rewrite Forall_forall in *.
      intros x Hx. apply filter_In in Hx. apply Hc. tauto.
    + rewrite Forall_map. revert Hc. apply Forall_impl. intros item Hi.
      destruct (JsCartItem.id item =? k)%string; [|exact Hi].
      simpl. apply Z.leb_le. lia.
  - constructor.
Qed.

Lemma jsRun_positive (calls : list JsCart.Call) (c : list JsCartItem.t) :
  Forall JsCart.numeric calls -> JsCart.quantities_positive c ->
  JsCart.quantities_positive (JsCart.run calls c).
Proof.
  unfold JsCart.run. revert c.
  induction calls as [|call calls IH]; intros c Hcalls Hc; simpl; [exact Hc|].
  inversion Hcalls as [|? ? Hcall Hrest]; subst.
  apply IH; [exact Hrest|]. apply jsStep_positive; assumption.
Qed.

(** C7: the invariant fails in the code at a quantity its cart page passes.
    An emptied quantity field parses to [NaN]; [NaN <= 0] is false, so
    [updateCartQuantity] does not remove the line but overwrites the
    quantity of every line of that id with [NaN]: the cart keeps its length
    and its ids, and a cart that had a line of that id no longer has all
    quantities at least one.  So it is after a wallet is added with quantity
    two and its field emptied. *)
Theorem cartPage_emptied_field_stores_NaN (k : string) (c : list JsCartItem.t) :
  let c' := JsCart.cartPageQuantityChange k JsNumber.NaN c in
  List.length c' = List.length c
  /\ jsIds c' = jsIds c
  /\ (forall item, In item c' -> JsCartItem.id item = k ->
        JsCartItem.quantity item = JsNumber.NaN)
  /\ (In k (jsIds c) -> ~ JsCart.quantities_positive c')
  /\ JsCart.run [JsCart.Add wallet (JsNumber.Int 2);
                 JsCart.Update "1" JsNumber.NaN] []
     = [JsCartItem.mk wallet JsNumber.NaN].
Proof.
  intro c'. subst c'.
  unfold JsCart.cartPageQuantityChange, JsCart.updateCartQuantity.
  cbn [JsNumber.leb].
  split; [apply length_map|].
  split; [apply jsRewritten_ids; reflexivity|].
  assert (Hnan : forall item,
             In item (map (fun item0 =>
                             if (JsCartItem.id item0 =? k)%string
                             then JsCartItem.mk (JsCartItem.fields item0) JsNumber.NaN
                             else item0) c) ->
             JsCartItem.id item = k -> JsCartItem.quantity item = JsNumber.NaN).
  { intros item Hin Hid. apply in_map_iff in Hin. destruct Hin as [x [Hx _]].
    destruct (String.eqb_spec (JsCartItem.id x) k) as [E|E].
    - subst item. reflexivity.
    - subst item. contradiction. }
  split; [exact Hnan|]. split; [|reflexivity].
  intros Hin Hpos. unfold JsCart.quantities_positive in Hpos.
  rewrite Forall_forall in Hpos.
  unfold jsIds in Hin. apply in_map_iff in Hin. destruct Hin as [x [Hx Hxin]].
  set (x' := JsCartItem.mk (JsCartItem.fields x) JsNumber.NaN).
  assert (Hx' : In x' (map (fun item0 =>
                              if (JsCartItem.id item0 =? k)%string
                              then JsCartItem.mk (JsCartItem.fields item0) JsNumber.NaN
                              else item0) c)).
  { apply in_map_iff. exists x. split; [|exact Hxin].
    rewrite (proj2 (String.eqb_eq _ _) Hx). reflexivity. }
  specialize (Hpos x' Hx'). discriminate Hpos.
Qed.

Lemma cartPage_emptied_field_stores_NaN_witness :
  ~ JsCart.quantities_positive
      (JsCart.cartPageQuantityChange "1" JsNumber.NaN
         [JsCartItem.mk wallet (JsNumber.Int 2)]).
Proof.
  apply (cartPage_emptied_field_stores_NaN "1"
           [JsCartItem.mk wallet (JsNumber.Int 2)]).
  left. reflexivity.
Defined.


